(** * TicketAutomation: the batch orchestrator and the per-record workflow of
    [main.py], embedded in Rocq.

    The embedding follows [main.py] function by function.

    - A Python [str] is a Rocq [string]; a value handed back by
      [driver.execute_script] is a [pyval].
    - The browser is a parameter: the class [Browser] lists the calls that
      [AutomationBot] makes on [ElementHelper], on the selenium driver and on
      its elements.  Each call answers with a value or with an exception of
      class [Exception]; nothing else is assumed about it.
    - The clock is counted in milliseconds.  [time.time()] reads it; every
      browser call advances it by the duration that the browser reports and
      [time.sleep d] by at least [d].
    - [self.processed_dps] and [self.stats] are fields of the state [Bot].
    - Beside the state every computation yields the list of [Event]s it went
      through: the browser calls with their answers, the entry and the
      return of a per-record attempt, the verdict of the filter validation,
      the return of the recovery and the totals line of the final report.
      No function reads that list.
    - [logger] calls have no effect on the state and are left out, with the
      exception of the totals line of the report.
    - [main] binds SIGINT and SIGTERM to a handler that raises [SystemExit];
      signals are delivered asynchronously and are not part of the model, so
      no call raises [KeyboardInterrupt].  The handler clause of
      [run_automation] for it is kept and is shown to be dead. *)

From Stdlib Require Import ZArith NArith QArith Ascii String List Bool Lia.
From stdpp Require Import base decidable option list strings gmap sets.

Set Default Proof Using "Type".
Set Warnings "-register-all,-clear-no-such-hyp".
Local Open Scope string_scope.
Local Open Scope N_scope.
Local Open Scope list_scope.

(* ===================================================================== *)
(** * Python strings *)
(* ===================================================================== *)

(** [str.isspace] on one character (code points below 256). *)
Definition isspace (c : ascii) : bool :=
  let n := N_of_ascii c in
  ((9 <=? n) && (n <=? 13)) || ((28 <=? n) && (n <=? 32)) || (n =? 133) || (n =? 160).

(** [str.lstrip()], [str.rstrip()], [str.strip()]. *)
Fixpoint lstrip (s : string) : string :=
  match s with
  | EmptyString => EmptyString
  | String c s' => if isspace c then lstrip s' else s
  end.

Definition rstrip (s : string) : string := String.rev (lstrip (String.rev s)).

Definition strip (s : string) : string := rstrip (lstrip s).

(** [s.startswith(p)]. *)
Definition startswith (s p : string) : bool := String.prefix p s.

(** [not s] for a string. *)
Definition str_empty (s : string) : bool :=
  match s with EmptyString => true | _ => false end.

(* ===================================================================== *)
(** * Values returned by [execute_script] *)
(* ===================================================================== *)

(** What selenium hands back for a JavaScript value: [null] is [None], an
    object is a [dict] with string keys, an array a [list]; a number is an
    [int] or a [float] (a float is given by its exact rational value). *)
Inductive pyval : Type :=
| PyNone
| PyBool (b : bool)
| PyInt (z : Z)
| PyFloat (q : Q)
| PyStr (s : string)
| PyList (l : list pyval)
| PyDict (d : list (string * pyval)).

(** Truth value of an object, as tested by [if response:]. *)
Definition truthy (v : pyval) : bool :=
  match v with
  | PyNone => false
  | PyBool b => b
  | PyInt z => negb (Z.eqb z 0)
  | PyFloat q => negb (Qeq_bool q 0)
  | PyStr s => negb (str_empty s)
  | PyList l => match l with [] => false | _ => true end
  | PyDict d => match d with [] => false | _ => true end
  end.

(** [d.get(k)] on the items of a dict. *)
Fixpoint dict_get (d : list (string * pyval)) (k : string) : pyval :=
  match d with
  | [] => PyNone
  | (k', v) :: d' => if String.eqb k' k then v else dict_get d' k
  end.

(** [v == 200]. *)
Definition eq_200 (v : pyval) : bool :=
  match v with
  | PyInt z => Z.eqb z 200
  | PyFloat q => Qeq_bool q (200 # 1)
  | _ => false
  end.

(* ===================================================================== *)
(** * Exceptions *)
(* ===================================================================== *)

(** [KeyboardInterrupt] is not a subclass of [Exception]; every other
    exception of the model is, and is named by its class. *)
Inductive exn : Type :=
| KeyboardInterrupt
| Exception (cls : string).

Inductive res (A : Type) : Type :=
| Ok (a : A)
| Raise (e : exn).
Arguments Ok {A} a.
Arguments Raise {A} e.

(** The answer of the browser to one call. *)
Inductive reply (A : Type) : Type :=
| Reply (a : A)
| Fault (cls : string).
Arguments Reply {A} a.
Arguments Fault {A} cls.

Definition res_of_reply {A} (r : reply A) : res A :=
  match r with
  | Reply a => Ok a
  | Fault cls => Raise (Exception cls)
  end.

(* ===================================================================== *)
(** * DataManager.read_daily_input *)
(* ===================================================================== *)

(** The body of [for line in file]; [seen] is [seen_codes] and [acc] is
    [kode_dp_list]. *)
Fixpoint read_lines (lines : list string) (seen : gset string) (acc : list string)
  : list string :=
  match lines with
  | [] => acc
  | raw :: rest =>
      let line := strip raw in
      if str_empty line || startswith line "#" || bool_decide (line ∈ seen)
      then read_lines rest seen acc
      else read_lines rest ({[line]} ∪ seen) (acc ++ [line])
  end.

(** [file] is what opening and reading the file gives: its lines, or the
    exception raised by [validate_file_exists], [open] or the decoder. *)
Definition read_daily_input (file : res (list string)) : list string :=
  match file with
  | Ok lines => read_lines lines ∅ []
  | Raise _ => []
  end.

(** The work list in the words of the specification: the lines that are kept,
    each code at its first occurrence only. *)
Definition kept_line (line : string) : bool :=
  negb (str_empty line) && negb (startswith line "#").

Fixpoint first_occurrences (l : list string) : list string :=
  match l with
  | [] => []
  | x :: l' => x :: filter (λ y, y ≠ x) (first_occurrences l')
  end.

Definition work_list_spec (lines : list string) : list string :=
  first_occurrences (filter (λ l, kept_line l = true) (map strip lines)).

(* ===================================================================== *)
(** * Config *)
(* ===================================================================== *)

(** The settings that [Config] reads from the environment.  Timeouts and
    delays are whole seconds. *)
Record Config : Type := {
  USERNAME : string;
  PASSWORD : string;
  LOGIN_URL : string;
  DEFAULT_TIMEOUT : N;
  SHORT_TIMEOUT : N;
  LONG_TIMEOUT : N;
  MAX_RETRIES : Z;
  RETRY_DELAY : N;
  DROPDOWN_RETRIES : N
}.

(** The values used when the environment sets none of the optional ones. *)
Definition default_config (username password login_url : string) : Config :=
  {| USERNAME := username; PASSWORD := password; LOGIN_URL := login_url;
     DEFAULT_TIMEOUT := 15; SHORT_TIMEOUT := 5; LONG_TIMEOUT := 30;
     MAX_RETRIES := 3; RETRY_DELAY := 2; DROPDOWN_RETRIES := 3 |}.

(** [Config.SELECTORS]. *)
Definition SELECTORS (key : string) : list string :=
  if String.eqb key "login_button" then
    ["#App > div > div.col-lg-5.d-flex.align-items-center.justify-content-center > div > form > div.my-3 > button";
     "button[type='submit']"; ".btn-primary"]
  else if String.eqb key "configuring_menu" then
    ["#sidebar > ul > li:nth-child(3) > ul > li:nth-child(1) > a"; "a[href*='configuring']"]
  else if String.eqb key "dp_menu" then
    ["#menu_0_1 > ul > li:nth-child(4) > a"; "a[href*='dp']"]
  else if String.eqb key "city_input" then
    ["#vs1__combobox > div.vs__selected-options > input"; "[id*='vs1'] input"; ".vs__search"]
  else if String.eqb key "rk_input" then
    ["#vs2__combobox > div.vs__selected-options > input"; "[id*='vs2'] input"]
  else if String.eqb key "dp_input" then
    ["#vs3__combobox > div.vs__selected-options > input"; "[id*='vs3'] input"]
  else if String.eqb key "filter_button" then
    ["#dp_comp > div > div > div:nth-child(9) > div > a.btn.btn-primary"; ".btn-primary";
     "button[type='submit']"]
  else if String.eqb key "data_row" then
    ["#lists_dp > tbody > tr"; "tbody tr"]
  else if String.eqb key "result_dp_code_cell" then
    ["#lists_dp > tbody > tr:first-child > td:nth-child(2)";
     "tbody tr:first-child td:nth-child(2)"]
  else if String.eqb key "no_data_message" then
    ["//td[contains(text(),'No data available in table')]"; "//td[contains(text(),'No data')]";
     ".dataTables_empty"]
  else if String.eqb key "create_ticket_icon" then
    ["#lists_dp > tbody > tr:first-child > td:nth-child(9) > a.btn.btn-success.btn-action > i";
     "tbody tr:first-child .btn-success i"; ".btn-success"]
  else if String.eqb key "final_create_button" then
    ["#dp_comp > div > div > div.v--modal-overlay.scrollable > div > div.v--modal-box.v--modal > div.modal-body.card.border-gradient-mask2 > div > div > div > div.row.justify-content-center > div > a";
     ".modal-body .btn-primary"; ".v--modal .btn"]
  else if String.eqb key "confirm_create_button" then
    ["body > div.swal2-container.swal2-center.swal2-backdrop-show > div > div.swal2-actions > button.swal2-confirm.swal2-styled";
     ".swal2-confirm"; ".swal2-styled"]
  else if String.eqb key "loading_overlay" then
    ["div.vld-background"; ".loading"; ".overlay"]
  else if String.eqb key "username_input" then
    ["/html/body/div[1]/div/div/div[1]/div[1]/div/form/div[1]/div/input"; "input[type='text']";
     "input[name='username']"; "#username"]
  else if String.eqb key "password_input" then
    ["/html/body/div[1]/div/div/div[1]/div[1]/div/form/div[2]/div/input"; "input[type='password']";
     "input[name='password']"; "#password"]
  else [].

(* ===================================================================== *)
(** * The browser *)
(* ===================================================================== *)

(** A [WebElement], by its id. *)
Definition Element : Type := N.

Inductive By : Type := XPATH | CSS_SELECTOR | ID.

(** A call on the browser, with its arguments.  Timeouts are in seconds,
    [None] standing for an omitted argument; [Sleep] is in milliseconds. *)
Inductive Call : Type :=
| WaitForElement (selectors : list string) (timeout : option N) (clickable : bool)
| SafeClick (element : Element) (element_name : string) (use_js : bool)
| HandleVueSelectDropdown (input_selectors : list string) (value_to_select : string)
| WaitForPageLoad (timeout : option N)
| ExecuteScript (script : string)
| FindElement (by_ : By) (selector : string)
| WaitPresence (by_ : By) (value : string) (timeout : N)
| Get (url : string)
| Refresh
| CurrentUrl
| IsDisplayed (element : Element)
| Text (element : Element)
| Clear (element : Element)
| SendKeys (element : Element) (keys : string)
| CreateDriver
| Sleep (ms : N).

(** What a call answered, as recorded in an event. *)
Inductive Answer : Type :=
| AUnit
| ABool (b : bool)
| AFound (e : option Element)
| AText (s : string)
| AValue (v : pyval).

Inductive AttemptOutcome : Type := SUCCESS | FAIL | TIMEOUT.

Inductive ValidationStatus : Type := MATCH | MISMATCH | NO_DATA | VALIDATION_FAILED.

Inductive Event : Type :=
| EvCall (c : Call) (at_ms : N) (a : res Answer)
    (* the call [c] was issued when the clock read [at_ms] *)
| EvAttempt (city rk kode_dp_value : string)
    (* [process_ticket_creation] was entered *)
| EvOutcome (kode_dp_value : string) (outcome : AttemptOutcome)
    (* [process_ticket_creation] returned *)
| EvRecovered (recovered : bool)
    (* [handle_page_refresh_and_navigation] returned *)
| EvValidated (expected_kode_dp : string) (status : ValidationStatus)
    (* [validate_filter_result] returned *)
| EvReport (total_items successful failed skipped : N).
    (* the totals line of [generate_final_report] *)

(** The calls of [AutomationBot] on its collaborators.  [ElementHelper]'s
    methods come first, then the selenium driver and its elements.
    [took w] is the duration in milliseconds of the call that led to [w],
    and [page_sleep d w] is the page after the program slept for [d]. *)
Class Browser (W : Type) : Type := {
  took : W → N;
  page_sleep : N → W → W;
  helper_wait_for_element : list string → option N → bool → W → reply (option Element) * W;
  helper_safe_click : Element → string → bool → W → reply bool * W;
  helper_handle_vue_select_dropdown : list string → string → W → reply bool * W;
  helper_wait_for_page_load : option N → W → reply bool * W;
  driver_execute_script : string → W → reply pyval * W;
  driver_find_element : By → string → W → reply Element * W;
  driver_wait_presence : By → string → N → W → reply Element * W;
  driver_get : string → W → reply unit * W;
  driver_refresh : W → reply unit * W;
  driver_current_url : W → reply string * W;
  element_is_displayed : Element → W → reply bool * W;
  element_text : Element → W → reply string * W;
  element_clear : Element → W → reply unit * W;
  element_send_keys : Element → string → W → reply unit * W;
  driver_manager_create_driver : W → reply unit * W;
  driver_manager_cleanup : W → W
}.

(* ===================================================================== *)
(** * The state of the bot and its computations *)
(* ===================================================================== *)

(** [self.stats]. *)
Record Stats : Type := {
  successful : N;
  failed : N;
  skipped : N;
  start_time : option N;
  end_time : option N
}.

(** One row of the reference table, as [load_master_data] stores it. *)
Record MasterEntry : Type := {
  City : string;
  RK : string;
  row_number : N
}.

(** The browser, the clock and the fields of [AutomationBot]. *)
Record Bot (W : Type) : Type := {
  page : W;
  now : N;
  processed_dps : gset string;
  stats : Stats
}.
Arguments page {W} _.
Arguments now {W} _.
Arguments processed_dps {W} _.
Arguments stats {W} _.

(** [AutomationBot.__init__] on a browser [w] at time [t]. *)
Definition new_bot {W} (w : W) (t : N) : Bot W :=
  {| page := w; now := t; processed_dps := ∅;
     stats := {| successful := 0; failed := 0; skipped := 0;
                 start_time := None; end_time := None |} |}.

(** A computation: from a state to a result, the next state and the events. *)
Definition M (W A : Type) : Type := Bot W → res A * Bot W * list Event.

Definition ret {W A} (a : A) : M W A := λ s, (Ok a, s, []).

Definition bind {W A B} (m : M W A) (k : A → M W B) : M W B :=
  λ s,
    match m s with
    | (Ok a, s1, t1) =>
        match k a s1 with
        | (r, s2, t2) => (r, s2, t1 ++ t2)
        end
    | (Raise e, s1, t1) => (Raise e, s1, t1)
    end.

Notation "'let*' x ':=' m 'in' k" := (bind m (λ x, k))
  (at level 10, x name, m at level 100, k at level 200).
Notation "m '>>' k" := (bind m (λ _, k))
  (at level 62, k at level 200, right associativity).

(** [try: body except Exception: handler]. *)
Definition try_except_Exception {W A} (body : M W A) (handler : M W A) : M W A :=
  λ s,
    match body s with
    | (Raise (Exception _), s1, t1) =>
        match handler s1 with
        | (r, s2, t2) => (r, s2, t1 ++ t2)
        end
    | other => other
    end.

(** [try: body except: handler]. *)
Definition try_except {W A} (body : M W A) (handler : M W A) : M W A :=
  λ s,
    match body s with
    | (Raise _, s1, t1) =>
        match handler s1 with
        | (r, s2, t2) => (r, s2, t1 ++ t2)
        end
    | other => other
    end.

(** [try: body finally: final]. *)
Definition try_finally {W A} (body : M W A) (final : M W unit) : M W A :=
  λ s,
    match body s with
    | (r, s1, t1) =>
        match final s1 with
        | (Ok _, s2, t2) => (r, s2, t1 ++ t2)
        | (Raise e, s2, t2) => (Raise e, s2, t1 ++ t2)
        end
    end.

Definition emit {W} (e : Event) : M W unit := λ s, (Ok tt, s, [e]).

Definition get_state {W} : M W (Bot W) := λ s, (Ok s, s, []).

Definition set_processed_dps {W} (p : gset string) : M W unit :=
  λ s, (Ok tt, {| page := page s; now := now s; processed_dps := p; stats := stats s |}, []).

Definition set_stats {W} (st : Stats) : M W unit :=
  λ s, (Ok tt, {| page := page s; now := now s; processed_dps := processed_dps s;
                  stats := st |}, []).

(** [range(n)]. *)
Definition range (n : Z) : list Z := map Z.of_nat (seq 0 (Z.to_nat n)).

Definition seconds (n : N) : N := 1000 * n.

(** [s.lower()] (code points below 256) and [p in s]. *)
Definition lower_char (c : ascii) : ascii :=
  let n := N_of_ascii c in
  if ((65 <=? n) && (n <=? 90)) || ((192 <=? n) && (n <=? 222) && negb (n =? 215))
  then ascii_of_N (n + 32) else c.

Fixpoint lower (s : string) : string :=
  match s with
  | EmptyString => EmptyString
  | String c s' => String (lower_char c) (lower s')
  end.

Fixpoint includes (s p : string) : bool :=
  String.prefix p s ||
  match s with
  | EmptyString => false
  | String _ s' => includes s' p
  end.

(* ===================================================================== *)
(** * AutomationBot *)
(* ===================================================================== *)

(** The script of [inject_network_listener]. *)
Definition listener_script : string :=
"
        (function() {
            if (window.xhr_listener_injected) { return; }
            window.xhr_listener_injected = true;
            window.ticket_creation_response = null;
            var XHR = XMLHttpRequest.prototype;
            var send = XHR.send;
            XHR.send = function() {
                this.addEventListener('load', function() {
                    if (this.responseURL && this.responseURL.includes('/project-management/configuring/dp/create-ticket')) {
                        try {
                            window.ticket_creation_response = JSON.parse(this.responseText);
                        } catch (e) {
                            window.ticket_creation_response = { error: 'JSON parse error', data: this.responseText };
                        }
                    }
                });
                return send.apply(this, arguments);
            };
        })();
        ".


Section Workflow.
Context {W : Type} `{!Browser W}.

(** ** The calls *)

Definition answered {A} (inj : A → Answer) (r : reply A) : res Answer :=
  match r with
  | Reply a => Ok (inj a)
  | Fault cls => Raise (Exception cls)
  end.

Definition perform {A} (c : Call) (inj : A → Answer) (op : W → reply A * W) : M W A :=
  λ s,
    match op (page s) with
    | (r, w') =>
        (res_of_reply r,
         {| page := w'; now := now s + took w';
            processed_dps := processed_dps s; stats := stats s |},
         [EvCall c (now s) (answered inj r)])
    end.

(** [time.sleep], in milliseconds, and [time.time()]. *)
Definition time_sleep (ms : N) : M W unit :=
  λ s,
    let w' := page_sleep ms (page s) in
    (Ok tt,
     {| page := w'; now := now s + ms + took w';
        processed_dps := processed_dps s; stats := stats s |},
     [EvCall (Sleep ms) (now s) (Ok AUnit)]).

Definition time_time : M W N := λ s, (Ok (now s), s, []).

Definition raise {A} (e : exn) : M W A := λ s, (Raise e, s, []).

Definition wait_for_element (selectors : list string) (timeout : option N)
    (clickable : bool) : M W (option Element) :=
  perform (WaitForElement selectors timeout clickable) AFound
          (helper_wait_for_element selectors timeout clickable).

Definition safe_click (element : Element) (element_name : string) (use_js : bool)
  : M W bool :=
  perform (SafeClick element element_name use_js) ABool
          (helper_safe_click element element_name use_js).

Definition handle_vue_select_dropdown (input_selectors : list string)
    (value_to_select : string) : M W bool :=
  perform (HandleVueSelectDropdown input_selectors value_to_select) ABool
          (helper_handle_vue_select_dropdown input_selectors value_to_select).

Definition wait_for_page_load (timeout : option N) : M W bool :=
  perform (WaitForPageLoad timeout) ABool (helper_wait_for_page_load timeout).

Definition execute_script (script : string) : M W pyval :=
  perform (ExecuteScript script) AValue (driver_execute_script script).

Definition find_element (by_ : By) (selector : string) : M W Element :=
  perform (FindElement by_ selector) (λ e, AFound (Some e))
          (driver_find_element by_ selector).

Definition wait_presence (by_ : By) (value : string) (timeout : N) : M W Element :=
  perform (WaitPresence by_ value timeout) (λ e, AFound (Some e))
          (driver_wait_presence by_ value timeout).

Definition get (url : string) : M W unit :=
  perform (Get url) (λ _, AUnit) (driver_get url).

Definition refresh : M W unit := perform Refresh (λ _, AUnit) driver_refresh.

Definition current_url : M W string := perform CurrentUrl AText driver_current_url.

Definition is_displayed (e : Element) : M W bool :=
  perform (IsDisplayed e) ABool (element_is_displayed e).

Definition text (e : Element) : M W string :=
  perform (Text e) AText (element_text e).

Definition clear (e : Element) : M W unit :=
  perform (Clear e) (λ _, AUnit) (element_clear e).

Definition send_keys (e : Element) (keys : string) : M W unit :=
  perform (SendKeys e keys) (λ _, AUnit) (element_send_keys e keys).

Definition create_driver : M W unit :=
  perform CreateDriver (λ _, AUnit) driver_manager_create_driver.

(** ** inject_network_listener *)

Definition inject_network_listener : M W unit :=
  try_except_Exception (execute_script listener_script >> ret tt) (ret tt).

(** ** cleanup *)

Definition cleanup : M W unit :=
  try_except_Exception
    (let* s := get_state in
     (match start_time (stats s), end_time (stats s) with
      | Some _, None =>
          let* t := time_time in
          set_stats {| successful := successful (stats s); failed := failed (stats s);
                       skipped := skipped (stats s);
                       start_time := start_time (stats s); end_time := Some t |}
      | _, _ => ret tt
      end) >>
     (λ s, (Ok tt,
            {| page := driver_manager_cleanup (page s); now := now s;
               processed_dps := processed_dps s; stats := stats s |}, [])))
    (ret tt).

(** ** initialize *)


(** ** login *)

(** One turn of [for attempt in range(3)]: [Some b] is [return b], [None]
    goes on with the next turn. *)
Definition login_attempt (cfg : Config) (attempt : Z) : M W (option bool) :=
  try_except_Exception
    (get (LOGIN_URL cfg) >>
     let* loaded := wait_for_page_load (Some (LONG_TIMEOUT cfg)) in
     if negb loaded then ret None else
     let* username_field := wait_for_element (SELECTORS "username_input") None true in
     match username_field with
     | None => ret None
     | Some username_field =>
         clear username_field >> time_sleep 200 >>
         send_keys username_field (USERNAME cfg) >> time_sleep 300 >>
         let* password_field := wait_for_element (SELECTORS "password_input") None true in
         match password_field with
         | None => ret None
         | Some password_field =>
             clear password_field >> time_sleep 200 >>
             send_keys password_field (PASSWORD cfg) >> time_sleep 300 >>
             let* login_button := wait_for_element (SELECTORS "login_button") None true in
             let* clicked :=
               match login_button with
               | None => ret false
               | Some b => safe_click b "Login button" true
               end in
             if negb clicked then ret None else
             try_except
               (wait_presence ID "sidebar" (LONG_TIMEOUT cfg) >>
                let* url := current_url in
                if negb (includes (lower url) "login") then ret (Some true) else ret None)
               (ret None)
         end
     end)
    ((if (attempt <? 2)%Z then time_sleep (seconds (RETRY_DELAY cfg)) else ret tt) >>
     ret None).

Fixpoint login_loop (cfg : Config) (attempts : list Z) : M W bool :=
  match attempts with
  | [] => ret false
  | attempt :: rest =>
      let* r := login_attempt cfg attempt in
      match r with
      | Some b => ret b
      | None => login_loop cfg rest
      end
  end.

Definition login (cfg : Config) : M W bool :=
  if str_empty (LOGIN_URL cfg) || str_empty (USERNAME cfg) || str_empty (PASSWORD cfg)
  then ret false
  else login_loop cfg (range 3).

(** ** navigate_to_dp_menu *)

Definition navigate_to_dp_menu (cfg : Config) : M W bool :=
  try_except_Exception
    (let* configuring_menu := wait_for_element (SELECTORS "configuring_menu") None true in
     let* clicked :=
       match configuring_menu with
       | None => ret false
       | Some e => safe_click e "Configuring menu" true
       end in
     if negb clicked then ret false else
     time_sleep 2000 >>
     let* dp_menu := wait_for_element (SELECTORS "dp_menu") None true in
     let* clicked :=
       match dp_menu with
       | None => ret false
       | Some e => safe_click e "DP menu" true
       end in
     if negb clicked then ret false else
     wait_for_page_load (Some (LONG_TIMEOUT cfg)) >>
     let* city_input := wait_for_element (SELECTORS "city_input") (Some 5) true in
     match city_input with
     | Some _ => inject_network_listener >> ret true
     | None => ret false
     end)
    (ret false).

(** ** validate_filter_result *)

(** [for no_data_selector in config.SELECTORS['no_data_message']]:
    [true] when one indicator is displayed, which makes the caller return. *)
Fixpoint no_data_displayed (selectors : list string) : M W bool :=
  match selectors with
  | [] => ret false
  | no_data_selector :: rest =>
      let* shown :=
        try_except
          (let by_ := if startswith no_data_selector "//" then XPATH else CSS_SELECTOR in
           let* e := find_element by_ no_data_selector in
           is_displayed e)
          (ret false) in
      if shown then ret true else no_data_displayed rest
  end.

(** One turn of [for attempt in range(max_attempts)]: [Some v] is
    [return v], [None] goes on with the next turn. *)
Definition validate_attempt (expected_kode_dp : string) (max_attempts attempt : Z)
  : M W (option (bool * ValidationStatus)) :=
  try_except_Exception
    (time_sleep 2000 >>
     let* no_data := no_data_displayed (SELECTORS "no_data_message") in
     if no_data then ret (Some (false, NO_DATA)) else
     let* result_cell :=
       wait_for_element (SELECTORS "result_dp_code_cell") (Some 10) false in
     match result_cell with
     | Some result_cell =>
         let* cell_text := text result_cell in
         let result_dp_text := strip cell_text in
         if String.eqb result_dp_text expected_kode_dp
         then ret (Some (true, MATCH))
         else ret (Some (false, MISMATCH))
     | None =>
         if (attempt <? max_attempts - 1)%Z then time_sleep 1000 >> ret None
         else ret None
     end)
    (if (attempt <? max_attempts - 1)%Z then time_sleep 1000 >> ret None
     else ret None).

Fixpoint validate_loop (expected_kode_dp : string) (max_attempts : Z)
    (attempts : list Z) : M W (bool * ValidationStatus) :=
  match attempts with
  | [] => ret (false, VALIDATION_FAILED)
  | attempt :: rest =>
      let* r := validate_attempt expected_kode_dp max_attempts attempt in
      match r with
      | Some v => ret v
      | None => validate_loop expected_kode_dp max_attempts rest
      end
  end.

Definition validate_filter_result (expected_kode_dp : string) (max_attempts : Z)
  : M W (bool * ValidationStatus) :=
  let* v := validate_loop expected_kode_dp max_attempts (range max_attempts) in
  emit (EvValidated expected_kode_dp (snd v)) >>
  ret v.

(** ** check_ticket_creation_status *)

Definition poll_script : string := "return window.ticket_creation_response;".

(** [while time.time() < end_time], for at most [fuel] turns; [None] when
    the turns run out. *)
Fixpoint poll_loop (fuel : nat) (end_time : N) : M W (option AttemptOutcome) :=
  let* t := time_time in
  if t <? end_time then
    match fuel with
    | O => ret None
    | S fuel' =>
        let* response := execute_script poll_script in
        if truthy response then
          match response with
          | PyDict d =>
              if eq_200 (dict_get d "code") then ret (Some SUCCESS)
              else ret (Some FAIL)
          | _ => raise (Exception "AttributeError")
          end
        else time_sleep 500 >> poll_loop fuel' end_time
    end
  else ret (Some TIMEOUT).

(** Every turn that polls without a response sleeps half a second, so
    two turns per second of [timeout] are enough (see [poll_loop_fuel]). *)
Definition poll_fuel (timeout : N) : nat := N.to_nat (2 * timeout).

Definition check_ticket_creation_status (timeout : N) : M W AttemptOutcome :=
  let* start_time := time_time in
  let end_time := start_time + seconds timeout in
  let* r := poll_loop (poll_fuel timeout) end_time in
  match r with
  | Some outcome => ret outcome
  | None => raise (Exception "RecursionError")
  end.

(** ** process_ticket_creation *)

(** [for filter_attempt in range(3)]: [None] is [return "FAIL"], and
    [Some b] leaves the loop with [validation_passed = b]. *)
Fixpoint filter_loop (turns : nat) (filter_button : Element) (kode_dp_value : string)
  : M W (option bool) :=
  match turns with
  | O => ret (Some false)
  | S turns' =>
      let* clicked := safe_click filter_button "Filter button" true in
      if negb clicked then filter_loop turns' filter_button kode_dp_value else
      wait_for_page_load None >>
      let* v := validate_filter_result kode_dp_value 3 in
      match snd v with
      | NO_DATA => ret None
      | MATCH => ret (Some true)
      | MISMATCH => time_sleep 1000 >> filter_loop turns' filter_button kode_dp_value
      | VALIDATION_FAILED =>
          time_sleep 1000 >> filter_loop turns' filter_button kode_dp_value
      end
  end.

(** The statements that follow [if not validation_passed: return "FAIL"]. *)
Definition create_ticket : M W AttemptOutcome :=
  let* create_ticket_icon := wait_for_element (SELECTORS "create_ticket_icon") None true in
  let* clicked :=
    match create_ticket_icon with
    | None => ret false
    | Some e => safe_click e "Create Ticket Icon" true
    end in
  if negb clicked then ret FAIL else
  wait_for_page_load None >> time_sleep 2000 >>
  let* final_create_button :=
    wait_for_element (SELECTORS "final_create_button") None true in
  let* clicked :=
    match final_create_button with
    | None => ret false
    | Some e => safe_click e "Final Create Button" true
    end in
  if negb clicked then ret FAIL else
  time_sleep 1000 >>
  execute_script "window.ticket_creation_response = null;" >>
  let* confirm_button := wait_for_element (SELECTORS "confirm_create_button") None true in
  let* clicked :=
    match confirm_button with
    | None => ret false
    | Some e => safe_click e "Confirmation Button" true
    end in
  if negb clicked then ret FAIL else
  check_ticket_creation_status 120.

(** The statements under the [try] of [process_ticket_creation]. *)
Definition process_ticket_creation_steps (city rk kode_dp_value : string)
  : M W AttemptOutcome :=
  let* ok := handle_vue_select_dropdown (SELECTORS "city_input") city in
  if negb ok then ret FAIL else
  time_sleep 500 >>
  let* ok := handle_vue_select_dropdown (SELECTORS "rk_input") rk in
  if negb ok then ret FAIL else
  time_sleep 500 >>
  let* ok := handle_vue_select_dropdown (SELECTORS "dp_input") kode_dp_value in
  if negb ok then ret FAIL else
  time_sleep 1000 >>
  let* filter_button := wait_for_element (SELECTORS "filter_button") None true in
  match filter_button with
  | None => ret FAIL
  | Some filter_button =>
      let* validation_passed := filter_loop 3 filter_button kode_dp_value in
      match validation_passed with
      | None => ret FAIL
      | Some false => ret FAIL
      | Some true => create_ticket
      end
  end.

Definition process_ticket_creation (city rk kode_dp_value : string)
  : M W AttemptOutcome :=
  emit (EvAttempt city rk kode_dp_value) >>
  let* outcome :=
    try_except_Exception (process_ticket_creation_steps city rk kode_dp_value)
                         (ret FAIL) in
  emit (EvOutcome kode_dp_value outcome) >>
  ret outcome.

(** ** handle_page_refresh_and_navigation *)

Definition handle_page_refresh_and_navigation (cfg : Config) : M W bool :=
  let* recovered :=
    try_except_Exception
      (refresh >>
       time_sleep (seconds (RETRY_DELAY cfg)) >>
       wait_for_page_load (Some (LONG_TIMEOUT cfg)) >>
       navigate_to_dp_menu cfg)
      (ret false) in
  emit (EvRecovered recovered) >>
  ret recovered.

(** ** generate_final_report *)

(** The report sets [end_time] and logs; the subtraction of the two times
    raises when [start_time] is unset, which ends the report before its
    totals line. *)
Definition generate_final_report (total_items : N) : M W unit :=
  try_except_Exception
    (let* s := get_state in
     let* t := time_time in
     set_stats {| successful := successful (stats s); failed := failed (stats s);
                  skipped := skipped (stats s);
                  start_time := start_time (stats s); end_time := Some t |} >>
     match start_time (stats s) with
     | None => raise (Exception "TypeError")
     | Some _ =>
         emit (EvReport total_items (successful (stats s)) (failed (stats s))
                        (skipped (stats s)))
     end)
    (ret tt).

(** ** run_automation *)

Definition add_successful : M W unit :=
  let* s := get_state in
  set_stats {| successful := successful (stats s) + 1; failed := failed (stats s);
               skipped := skipped (stats s);
               start_time := start_time (stats s); end_time := end_time (stats s) |}.

Definition add_failed : M W unit :=
  let* s := get_state in
  set_stats {| successful := successful (stats s); failed := failed (stats s) + 1;
               skipped := skipped (stats s);
               start_time := start_time (stats s); end_time := end_time (stats s) |}.

Definition add_skipped : M W unit :=
  let* s := get_state in
  set_stats {| successful := successful (stats s); failed := failed (stats s);
               skipped := skipped (stats s) + 1;
               start_time := start_time (stats s); end_time := end_time (stats s) |}.

(** One turn of [for attempt in range(config.MAX_RETRIES)]: [Some f] is a
    [break] with [final_status = f], [None] goes on with the next turn. *)
Definition attempt_body (cfg : Config) (city rk kode_dp_value : string) (attempt : Z)
  : M W (option AttemptOutcome) :=
  try_except_Exception
    (let* result := process_ticket_creation city rk kode_dp_value in
     match result with
     | SUCCESS => ret (Some SUCCESS)
     | TIMEOUT => ret (Some TIMEOUT)
     | FAIL =>
         if (attempt <? MAX_RETRIES cfg - 1)%Z then
           let* recovered := handle_page_refresh_and_navigation cfg in
           if negb recovered then ret (Some FAIL)
           else time_sleep (seconds (RETRY_DELAY cfg)) >> ret None
         else ret None
     end)
    ((if (attempt <? MAX_RETRIES cfg - 1)%Z then time_sleep (seconds (RETRY_DELAY cfg))
      else ret tt) >>
     ret None).

(** The loop over the attempts; its value is [final_status]. *)
Fixpoint attempt_loop (cfg : Config) (city rk kode_dp_value : string)
    (attempts : list Z) : M W AttemptOutcome :=
  match attempts with
  | [] => ret FAIL
  | attempt :: rest =>
      let* r := attempt_body cfg city rk kode_dp_value attempt in
      match r with
      | Some final_status => ret final_status
      | None => attempt_loop cfg city rk kode_dp_value rest
      end
  end.

(** The body of [for index, kode_dp_value in enumerate(kode_dp_list, 1)];
    [true] is a [break] of that loop. *)
Definition process_item (cfg : Config) (master_data : gmap string MasterEntry)
    (kode_dp_value : string) : M W bool :=
  λ s0,
    match
      (let* s := get_state in
       if bool_decide (kode_dp_value ∈ processed_dps s) then add_skipped >> ret false
       else
         match master_data !! kode_dp_value with
         | None => add_skipped >> ret false
         | Some data =>
             let city := City data in
             let rk := RK data in
             let* final_status :=
               attempt_loop cfg city rk kode_dp_value (range (MAX_RETRIES cfg)) in
             match final_status with
             | SUCCESS =>
                 let* s := get_state in
                 set_processed_dps ({[kode_dp_value]} ∪ processed_dps s) >>
                 add_successful
             | TIMEOUT => add_skipped
             | FAIL => add_failed
             end >>
             time_sleep 1000 >>
             ret false
         end) s0
    with
    | (Raise KeyboardInterrupt, s1, t1) => (Ok true, s1, t1)
    | (Raise (Exception _), s1, t1) =>
        match add_failed s1 with
        | (_, s2, t2) => (Ok false, s2, t1 ++ t2)
        end
    | other => other
    end.

Fixpoint process_items (cfg : Config) (master_data : gmap string MasterEntry)
    (kode_dp_list : list string) : M W unit :=
  match kode_dp_list with
  | [] => ret tt
  | kode_dp_value :: rest =>
      let* stop := process_item cfg master_data kode_dp_value in
      if stop then ret tt else process_items cfg master_data rest
  end.

(** [master_data] is what [DataManager.load_master_data] returned ([None]
    when it failed) and [daily_input] what reading the daily input file
    gave. *)
Definition run_automation (cfg : Config) (master_data : option (gmap string MasterEntry))
    (daily_input : res (list string)) : M W bool :=
  try_finally
    (try_except_Exception
       (match master_data with
        | None => ret false
        | Some master_data =>
            if bool_decide (master_data = ∅) then ret false else
            let kode_dp_list := read_daily_input daily_input in
            match kode_dp_list with
            | [] => ret false
            | _ =>
                let* logged_in := login cfg in
                if negb logged_in then ret false else
                let* on_page := navigate_to_dp_menu cfg in
                if negb on_page then ret false else
                set_processed_dps ∅ >>
                let total_items := N.of_nat (length kode_dp_list) in
                process_items cfg master_data kode_dp_list >>
                generate_final_report total_items >>
                ret true
            end
        end)
       (ret false))
    cleanup.

(** ** main *)

End Workflow.

(* ===================================================================== *)
(** * Reading the events *)
(* ===================================================================== *)

(** The polls of the response slot among the events: when each was issued
    and what it answered. *)
Definition poll_of (e : Event) : option (N * res pyval) :=
  match e with
  | EvCall (ExecuteScript script) at_ms a =>
      if String.eqb script poll_script then
        match a with
        | Ok (AValue v) => Some (at_ms, Ok v)
        | Ok _ => None
        | Raise e => Some (at_ms, Raise e)
        end
      else None
  | _ => None
  end.

Definition polls (t : list Event) : list (N * res pyval) := omap poll_of t.

(** The durations of the sleeps among the events. *)
Definition sleep_of (e : Event) : option N :=
  match e with
  | EvCall (Sleep ms) _ _ => Some ms
  | _ => None
  end.

Definition sleeps (t : list Event) : list N := omap sleep_of t.

(** Successive times that are at least half a second apart. *)
Fixpoint spaced (times : list N) : Prop :=
  match times with
  | a :: (b :: _) as rest => a + 500 ≤ b ∧ spaced rest
  | _ => True
  end.

(** A poll issued before the deadline that found the slot empty. *)
Definition empty_poll (deadline : N) (p : N * res pyval) : Prop :=
  p.1 < deadline ∧ ∃ v, p.2 = Ok v ∧ truthy v = false.

(** How the polling ends: [last] holds the poll that ended it, if any, and
    [now'] is the clock at the end. *)
Inductive poll_end (deadline now' : N) : list (N * res pyval) → res AttemptOutcome → Prop :=
| poll_end_timeout :
    deadline ≤ now' →
    poll_end deadline now' [] (Ok TIMEOUT)
| poll_end_response at_ms d :
    at_ms < deadline → truthy (PyDict d) = true →
    poll_end deadline now' [(at_ms, Ok (PyDict d))]
             (Ok (if eq_200 (dict_get d "code") then SUCCESS else FAIL))
| poll_end_not_dict at_ms v :
    at_ms < deadline → truthy v = true → (∀ d, v ≠ PyDict d) →
    poll_end deadline now' [(at_ms, Ok v)] (Raise (Exception "AttributeError"))
| poll_end_raise at_ms e :
    at_ms < deadline →
    poll_end deadline now' [(at_ms, Raise e)] (Raise e).




(* ===================================================================== *)
(** * Scripted browsers *)
(* ===================================================================== *)

(** A browser given by a script: the answer to a call is a function of the
    number of calls answered so far and of the arguments.  Every call takes
    [call_ms] milliseconds. *)
Record Script : Type := {
  call_ms : N;
  on_wait_for_element : nat → list string → reply (option Element);
  on_safe_click : nat → string → reply bool;
  on_dropdown : nat → list string → string → reply bool;
  on_page_load : nat → reply bool;
  on_execute_script : nat → string → reply pyval;
  on_find_element : nat → string → reply Element;
  on_is_displayed : nat → Element → reply bool;
  on_text : nat → Element → reply string;
  on_current_url : nat → reply string;
  on_other : nat → reply unit
}.

Definition scripted (sc : Script) : Browser nat :=
  {| took := λ _, call_ms sc;
     page_sleep := λ _ n, n;
     helper_wait_for_element := λ selectors _ _ n, (on_wait_for_element sc n selectors, S n);
     helper_safe_click := λ _ name _ n, (on_safe_click sc n name, S n);
     helper_handle_vue_select_dropdown :=
       λ selectors value n, (on_dropdown sc n selectors value, S n);
     helper_wait_for_page_load := λ _ n, (on_page_load sc n, S n);
     driver_execute_script := λ script n, (on_execute_script sc n script, S n);
     driver_find_element := λ _ selector n, (on_find_element sc n selector, S n);
     driver_wait_presence := λ _ _ _ n,
       (match on_other sc n with Reply _ => Reply 0 | Fault cls => Fault cls end, S n);
     driver_get := λ _ n, (on_other sc n, S n);
     driver_refresh := λ n, (on_other sc n, S n);
     driver_current_url := λ n, (on_current_url sc n, S n);
     element_is_displayed := λ e n, (on_is_displayed sc n e, S n);
     element_text := λ e n, (on_text sc n e, S n);
     element_clear := λ _ n, (on_other sc n, S n);
     element_send_keys := λ _ _ n, (on_other sc n, S n);
     driver_manager_create_driver := λ n, (on_other sc n, S n);
     driver_manager_cleanup := λ n, n |}.

(** The page on which everything works for the code [kode]: every element is
    found, every click and selection succeeds, no "no data" indicator exists,
    the first row shows [kode] and the slot holds [response]. *)
Definition obliging (kode : string) (response : pyval) : Script :=
  {| call_ms := 10;
     on_wait_for_element := λ _ _, Reply (Some 1);
     on_safe_click := λ _ _, Reply true;
     on_dropdown := λ _ _ _, Reply true;
     on_page_load := λ _, Reply true;
     on_execute_script := λ _ script,
       Reply (if String.eqb script poll_script then response else PyNone);
     on_find_element := λ _ _, Fault "NoSuchElementException";
     on_is_displayed := λ _ _, Reply false;
     on_text := λ _ _, Reply kode;
     on_current_url := λ _, Reply "https://intranet.example/dashboard";
     on_other := λ _, Reply tt |}.

Definition created : pyval :=
  PyDict [("code", PyInt 200); ("message", PyStr "Ticket created")].

Definition rejected : pyval :=
  PyDict [("code", PyInt 422); ("message", PyStr "Duplicate ticket")].

(* ===================================================================== *)
(** * Computations that only browse *)
(* ===================================================================== *)

Definition interrupted {A} (r : res A) : bool :=
  match r with
  | Raise KeyboardInterrupt => true
  | _ => false
  end.

(** [browsing P m]: whatever the state, [m] does not end on an interrupt,
    leaves [processed_dps] and [stats] as they are, does not turn the clock
    back, and goes through events of the kind [P] only. *)
Definition browsing {W A} (P : Event → bool) (m : M W A) : Prop :=
  ∀ s, match m s with
       | (r, s', t) =>
           interrupted r = false
           ∧ processed_dps s' = processed_dps s
           ∧ stats s' = stats s
           ∧ now s ≤ now s'
           ∧ Forall (λ e, P e = true) t
       end.

(** The clicks of the creation step: the row's create-ticket trigger and the
    two confirmation controls that follow it. *)
Definition creation_click (e : Event) : bool :=
  match e with
  | EvCall (SafeClick _ element_name _) _ _ =>
      String.eqb element_name "Create Ticket Icon"
      || String.eqb element_name "Final Create Button"
      || String.eqb element_name "Confirmation Button"
  | _ => false
  end.

(** The landmarks of the retry policy among the events: the start and the
    return of an attempt, the page refresh of the recovery and its return. *)
Inductive Mark : Type :=
| AttemptStarted (kode_dp_value : string)
| AttemptReturned (kode_dp_value : string) (outcome : AttemptOutcome)
| PageRefreshed
| Recovered (recovered : bool).

Definition mark_of (e : Event) : option Mark :=
  match e with
  | EvAttempt _ _ kode_dp_value => Some (AttemptStarted kode_dp_value)
  | EvOutcome kode_dp_value outcome => Some (AttemptReturned kode_dp_value outcome)
  | EvCall Refresh _ _ => Some PageRefreshed
  | EvRecovered recovered => Some (Recovered recovered)
  | _ => None
  end.

Definition marks (t : list Event) : list Mark := omap mark_of t.

Definition unmarked (e : Event) : bool :=
  match mark_of e with
  | None => match e with EvReport _ _ _ _ => false | _ => true end
  | Some _ => false
  end.

(** An event that is neither a landmark nor a click of the creation step. *)
Definition routine (e : Event) : bool := unmarked e && negb (creation_click e).

Definition anything (e : Event) : bool := true.

(* ===================================================================== *)
(** * What the filter validation saw *)
(* ===================================================================== *)

(** A "no data" indicator was found and is displayed. *)
Definition indicator_shown (e : Event) : bool :=
  match e with
  | EvCall (IsDisplayed _) _ (Ok (ABool true)) => true
  | _ => false
  end.

(** The text of a cell was read. *)
Definition cell_text_of (e : Event) : option string :=
  match e with
  | EvCall (Text _) _ (Ok (AText cell_text)) => Some cell_text
  | _ => None
  end.

(** Events among which no indicator was shown and no cell was read. *)
Definition undecided (t : list Event) : Prop :=
  Forall (λ e, indicator_shown e = false ∧ cell_text_of e = None) t.

(** The events of a validation that ends with a given status: the events
    that decide it come last. *)
Inductive decided (expected : string) : ValidationStatus → list Event → Prop :=
| decided_NO_DATA pre e at_ms :
    undecided pre →
    decided expected NO_DATA (pre ++ [EvCall (IsDisplayed e) at_ms (Ok (ABool true))])
| decided_MATCH pre cell at1 at2 cell_text :
    undecided pre → strip cell_text = expected →
    decided expected MATCH
      (pre ++ [EvCall (WaitForElement (SELECTORS "result_dp_code_cell") (Some 10) false)
                      at1 (Ok (AFound (Some cell)));
               EvCall (Text cell) at2 (Ok (AText cell_text))])
| decided_MISMATCH pre cell at1 at2 cell_text :
    undecided pre → strip cell_text ≠ expected →
    decided expected MISMATCH
      (pre ++ [EvCall (WaitForElement (SELECTORS "result_dp_code_cell") (Some 10) false)
                      at1 (Ok (AFound (Some cell)));
               EvCall (Text cell) at2 (Ok (AText cell_text))])
| decided_VALIDATION_FAILED t :
    undecided t →
    decided expected VALIDATION_FAILED t.

Definition is_MATCH (status : ValidationStatus) : bool :=
  match status with MATCH => true | _ => false end.

(* ===================================================================== *)
(** * The sub-steps of a per-record attempt *)
(* ===================================================================== *)

Definition answer_true (a : res Answer) : bool :=
  match a with Ok (ABool true) => true | _ => false end.

Definition answer_found (a : res Answer) : bool :=
  match a with Ok (AFound (Some _)) => true | _ => false end.

Fixpoint same_selectors (l1 l2 : list string) : bool :=
  match l1, l2 with
  | [], [] => true
  | x :: l1', y :: l2' => String.eqb x y && same_selectors l1' l2'
  | _, _ => false
  end.

(** A sub-step whose failure ends the attempt: a dropdown selection that did
    not succeed, an element other than the result cell that was not located,
    a click other than the one on the filter button that did not succeed. *)
Definition step_failed (e : Event) : bool :=
  match e with
  | EvCall (HandleVueSelectDropdown _ _) _ a => negb (answer_true a)
  | EvCall (WaitForElement selectors _ _) _ a =>
      negb (same_selectors selectors (SELECTORS "result_dp_code_cell"))
      && negb (answer_found a)
  | EvCall (SafeClick _ element_name _) _ a =>
      negb (String.eqb element_name "Filter button") && negb (answer_true a)
  | _ => false
  end.

(** A sub-step that is tried again within the attempt when it fails: the
    click on the filter button, the location of the result cell, and a
    validation that ends on MISMATCH or VALIDATION_FAILED. *)
Definition step_retried (e : Event) : bool :=
  match e with
  | EvCall (SafeClick _ element_name _) _ a =>
      String.eqb element_name "Filter button" && negb (answer_true a)
  | EvCall (WaitForElement selectors _ _) _ a =>
      same_selectors selectors (SELECTORS "result_dp_code_cell") && negb (answer_found a)
  | EvValidated _ MISMATCH => true
  | EvValidated _ VALIDATION_FAILED => true
  | _ => false
  end.

(** The failures that come before the creation step. *)
Definition gate_failed (e : Event) : bool :=
  match e with
  | EvCall (HandleVueSelectDropdown _ _) _ a => negb (answer_true a)
  | EvCall (WaitForElement selectors _ _) _ a =>
      same_selectors selectors (SELECTORS "filter_button") && negb (answer_found a)
  | EvValidated _ NO_DATA => true
  | _ => false
  end.

Definition is_validated (e : Event) : bool :=
  match e with EvValidated _ _ => true | _ => false end.

(** A routine event that is neither a failed sub-step nor a verdict of the
    validation. *)
Definition steady (e : Event) : bool :=
  routine e && negb (step_failed e) && negb (is_validated e).

(** Any failure of a sub-step, in the words of the specification: a dropdown
    selection, an element location, a click or a validation that failed. *)
Definition substep_failed (e : Event) : bool :=
  match e with
  | EvCall (HandleVueSelectDropdown _ _) _ a => negb (answer_true a)
  | EvCall (WaitForElement _ _ _) _ a => negb (answer_found a)
  | EvCall (SafeClick _ _ _) _ a => negb (answer_true a)
  | EvValidated _ status => negb (is_MATCH status)
  | _ => false
  end.

(** The second half of the sentence of the specification on failed
    sub-steps, as it is written: on every browser, an attempt in which some
    sub-step failed returns FAIL and clicks no control of the creation
    step. *)
Definition any_failed_substep_fails : Prop :=
  ∀ (W : Type) (B : Browser W) (city rk kode : string) (s : Bot W),
    match process_ticket_creation city rk kode s with
    | (r, _, t) =>
        Exists (λ e, substep_failed e = true) t →
        r = Ok FAIL ∧ Forall (λ e, creation_click e = false) t
    end.

(* ===================================================================== *)
(** * The counters *)
(* ===================================================================== *)

Inductive Bucket : Type := Successful | Failed | Skipped.

(** [st] with one more in the counter [b] and nothing else changed. *)
Definition bump (b : Bucket) (st : Stats) : Stats :=
  {| successful := successful st + (match b with Successful => 1 | _ => 0 end);
     failed := failed st + (match b with Failed => 1 | _ => 0 end);
     skipped := skipped st + (match b with Skipped => 1 | _ => 0 end);
     start_time := start_time st;
     end_time := end_time st |}.

(** The number of items that the counters account for. *)
Definition handled (st : Stats) : N := successful st + failed st + skipped st.

(** The bucket of a final status. *)
Definition bucket_of (final_status : AttemptOutcome) : Bucket :=
  match final_status with
  | SUCCESS => Successful
  | TIMEOUT => Skipped
  | FAIL => Failed
  end.

(** The outcome of an attempt whose steps ended with [r]: an exception is
    caught and gives FAIL. *)
Definition caught (r : res AttemptOutcome) : AttemptOutcome :=
  match r with
  | Ok outcome => outcome
  | Raise _ => FAIL
  end.

(* ===================================================================== *)
(** * The landmarks of the retry loop *)
(* ===================================================================== *)

(** The landmarks that the loop over the attempts can leave for the turns
    [attempts], with the final status it ends on. *)
Inductive retry_marks (cfg : Config) (kode : string)
  : list Z → AttemptOutcome → list Mark → Prop :=
| retry_exhausted :
    retry_marks cfg kode [] FAIL []
| retry_SUCCESS attempt rest :
    retry_marks cfg kode (attempt :: rest) SUCCESS
      [AttemptStarted kode; AttemptReturned kode SUCCESS]
| retry_TIMEOUT attempt rest :
    retry_marks cfg kode (attempt :: rest) TIMEOUT
      [AttemptStarted kode; AttemptReturned kode TIMEOUT]
| retry_last attempt rest final_status m :
    (attempt <? MAX_RETRIES cfg - 1)%Z = false →
    retry_marks cfg kode rest final_status m →
    retry_marks cfg kode (attempt :: rest) final_status
      (AttemptStarted kode :: AttemptReturned kode FAIL :: m)
| retry_recovered attempt rest final_status m :
    (attempt <? MAX_RETRIES cfg - 1)%Z = true →
    retry_marks cfg kode rest final_status m →
    retry_marks cfg kode (attempt :: rest) final_status
      (AttemptStarted kode :: AttemptReturned kode FAIL
         :: PageRefreshed :: Recovered true :: m)
| retry_not_recovered attempt rest :
    (attempt <? MAX_RETRIES cfg - 1)%Z = true →
    retry_marks cfg kode (attempt :: rest) FAIL
      [AttemptStarted kode; AttemptReturned kode FAIL; PageRefreshed; Recovered false].

(* ===================================================================== *)
(** * Sample runs *)
(* ===================================================================== *)

Definition sample_config : Config :=
  default_config "operator" "secret" "https://intranet.example/login".

(** A reference table with the code A1 only. *)
Definition sample_master : gmap string MasterEntry :=
  {[ "A1" := {| City := "CityX"; RK := "RegionY"; row_number := 2 |} ]}.

(** The obliging page on which the creation endpoint never answers. *)
Definition silent_page : Browser nat := scripted (obliging "A1" PyNone).


(** The obliging page, except that the first click on the filter button
    fails. *)
Definition slow_filter_button : Browser nat :=
  scripted
    {| call_ms := 10;
       on_wait_for_element := λ _ _, Reply (Some 1);
       on_safe_click := λ n name,
         Reply (negb (String.eqb name "Filter button" && Nat.eqb n 4));
       on_dropdown := λ _ _ _, Reply true;
       on_page_load := λ _, Reply true;
       on_execute_script := λ _ script,
         Reply (if String.eqb script poll_script then created else PyNone);
       on_find_element := λ _ _, Fault "NoSuchElementException";
       on_is_displayed := λ _ _, Reply false;
       on_text := λ _ _, Reply "A1";
       on_current_url := λ _, Reply "https://intranet.example/dashboard";
       on_other := λ _, Reply tt |}.

(** The item A1 on the silent page, and on the page of the stuck dropdowns. *)
Definition silent_run : res bool * Bot nat * list Event :=
  @process_item nat silent_page sample_config sample_master "A1" (new_bot 0%nat 0).




(* ===================================================================== *)
(** * The time stamps *)
(* ===================================================================== *)

(** [st] with [end_time], when it is still unset although [start_time] is
    set, put to [t]: what [cleanup] does to the statistics. *)
Definition stamped (t : N) (st : Stats) : Stats :=
  match start_time st, end_time st with
  | Some _, None =>
      {| successful := successful st; failed := failed st; skipped := skipped st;
         start_time := start_time st; end_time := Some t |}
  | _, _ => st
  end.

(** [st] with [end_time] put to [t]: what the final report does. *)
Definition reported (t : N) (st : Stats) : Stats :=
  {| successful := successful st; failed := failed st; skipped := skipped st;
     start_time := start_time st; end_time := Some t |}.

(** The three counters of [st]. *)
Definition counters (st : Stats) : N * N * N := (successful st, failed st, skipped st).

Definition is_report (e : Event) : bool :=
  match e with EvReport _ _ _ _ => true | _ => false end.

(** The work list with two lines for A1, on the page that obliges for A1. *)
Definition repeated_items_run : res unit * Bot nat * list Event :=
  @process_items nat (scripted (obliging "A1" created)) sample_config sample_master
    ["A1"; "A1"; "A2"] (new_bot 0%nat 0).

(** A whole run on the obliging page, and one with no credentials. *)
Definition obliging_run : res bool * Bot nat * list Event :=
  @run_automation nat (scripted (obliging "A1" created)) sample_config
    (Some sample_master) (Ok ["A1"; "A1"; "A2"]) (new_bot 0%nat 0).


(* ===================================================================== *)
(** * The steps of an attempt, of the login and of the navigation *)
(* ===================================================================== *)

(** The dropdown selections among the events: the selectors of the input,
    the value typed and the answer. *)
Definition selection_of (e : Event) : option (list string * string * res Answer) :=
  match e with
  | EvCall (HandleVueSelectDropdown input_selectors value_to_select) _ a =>
      Some (input_selectors, value_to_select, a)
  | _ => None
  end.

Definition selections (t : list Event) : list (list string * string * res Answer) :=
  omap selection_of t.

(** The scripts handed to [execute_script] among the events. *)
Definition script_of (e : Event) : option string :=
  match e with
  | EvCall (ExecuteScript script) _ _ => Some script
  | _ => None
  end.




(** An event of the polling loop: a poll of the slot or a sleep of half a
    second. *)
Definition polling_event (e : Event) : bool :=
  match e with
  | EvCall (ExecuteScript script) _ _ => String.eqb script poll_script
  | EvCall (Sleep ms) _ _ => ms =? 500
  | _ => false
  end.

Definition clear_slot_script : string := "window.ticket_creation_response = null;".

(** The events of the creation step up to the polling, when every one of
    its sub-steps succeeded: the three controls are located and clicked in
    turn, and the slot is emptied before the confirmation is clicked. *)
Inductive creation_steps : list Event → Prop :=
| creation_steps_intro icon final confirm a1 a2 a3 a4 a5 a6 a7 a8 a9 a10 loaded v :
    creation_steps
      [EvCall (WaitForElement (SELECTORS "create_ticket_icon") None true) a1
              (Ok (AFound (Some icon)));
       EvCall (SafeClick icon "Create Ticket Icon" true) a2 (Ok (ABool true));
       EvCall (WaitForPageLoad None) a3 (Ok (ABool loaded));
       EvCall (Sleep 2000) a4 (Ok AUnit);
       EvCall (WaitForElement (SELECTORS "final_create_button") None true) a5
              (Ok (AFound (Some final)));
       EvCall (SafeClick final "Final Create Button" true) a6 (Ok (ABool true));
       EvCall (Sleep 1000) a7 (Ok AUnit);
       EvCall (ExecuteScript clear_slot_script) a8 (Ok (AValue v));
       EvCall (WaitForElement (SELECTORS "confirm_create_button") None true) a9
              (Ok (AFound (Some confirm)));
       EvCall (SafeClick confirm "Confirmation Button" true) a10 (Ok (ABool true))].



(** The keys typed into the fields among the events. *)
Definition keys_of (e : Event) : option string :=
  match e with
  | EvCall (SendKeys _ keys) _ (Ok _) => Some keys
  | _ => None
  end.



(** An event that prepares the creation: a routine event that executes no
    script. *)
Definition preparing (e : Event) : bool :=
  routine e && match script_of e with None => true | Some _ => false end.

(** An event of the filter loop that leaves the gate open: it prepares the
    creation, and is no failure before the creation step and no dropdown
    selection. *)
Definition filtering (e : Event) : bool :=
  preparing e && negb (gate_failed e)
  && match selection_of e with None => true | Some _ => false end.

(** What the polls of a status check that ends on [outcome] answered. *)
Definition polled (outcome : AttemptOutcome) (ps : list (N * res pyval)) : Prop :=
  match outcome with
  | SUCCESS =>
      ∃ at_ms d, last ps = Some (at_ms, Ok (PyDict d))
                 ∧ eq_200 (dict_get d "code") = true
  | TIMEOUT => Forall (λ p, ∃ v, p.2 = Ok v ∧ truthy v = false) ps
  | FAIL =>
      ∃ at_ms d, last ps = Some (at_ms, Ok (PyDict d))
                 ∧ eq_200 (dict_get d "code") = false
  end.

(** An attempt for A1, the login, the navigation and the recovery on the
    page that obliges for A1. *)
Definition obliging_attempt : res AttemptOutcome * Bot nat * list Event :=
  @process_ticket_creation nat (scripted (obliging "A1" created))
    "CityX" "RegionY" "A1" (new_bot 0%nat 0).

Definition obliging_login : res bool * Bot nat * list Event :=
  @login nat (scripted (obliging "A1" created)) sample_config (new_bot 0%nat 0).

Definition obliging_navigation : res bool * Bot nat * list Event :=
  @navigate_to_dp_menu nat (scripted (obliging "A1" created)) sample_config
    (new_bot 0%nat 0).

Definition obliging_recovery : res bool * Bot nat * list Event :=
  @handle_page_refresh_and_navigation nat (scripted (obliging "A1" created))
    sample_config (new_bot 0%nat 0).

(** The settings of [sample_config] with MAX_RETRIES=0 in the environment. *)
Definition no_retries_config : Config :=
  {| USERNAME := "operator"; PASSWORD := "secret";
     LOGIN_URL := "https://intranet.example/login";
     DEFAULT_TIMEOUT := 15; SHORT_TIMEOUT := 5; LONG_TIMEOUT := 30;
     MAX_RETRIES := 0; RETRY_DELAY := 2; DROPDOWN_RETRIES := 3 |}.

(* ===================================================================== *)
(** * DataManager.validate_file_exists and DataManager.load_master_data *)
(* ===================================================================== *)

(** What the file system holds at a path: nothing, something that is not a
    regular file, or a regular file. *)
Inductive PathKind : Type := NoEntry | NotAFile | RegularFile.

(** [validate_file_exists]; [filename] is [None] for Python's [None], and
    the value returned is the path. *)
Definition validate_file_exists (fs : string → PathKind) (filename : option string)
  : reply string :=
  match filename with
  | None => Fault "ValueError"
  | Some filename =>
      if str_empty filename then Fault "ValueError"
      else match fs filename with
           | NoEntry => Fault "FileNotFoundError"
           | NotAFile => Fault "ValueError"
           | RegularFile => Reply filename
           end
  end.

(** What [csv.reader] yields for a file, with the delimiter that the
    sniffer proposes (a comma when it proposes none): the records, each a
    list of fields, and the class of the exception that the reader raises
    after the last of them, if it raises. *)
Record CsvReading : Type := {
  records : list (list string);
  reader_raises : option string
}.

Definition required_fields : list string := ["Kode_DP"; "City"; "RK"].

(** The dict that [csv.DictReader] makes of a record, as the list of its
    assignments in the order in which they are made: a field name is bound
    to the field at its position, and to [None] when the record is too
    short.  (Fields beyond the last field name go under the key [None],
    which no lookup by a name finds.) *)
Fixpoint DictReader_row (fieldnames row : list string) : list (string * option string) :=
  match fieldnames with
  | [] => []
  | name :: fieldnames' => (name, head row) :: DictReader_row fieldnames' (tail row)
  end.

(** The first binding of [key] in a list of bindings. *)
Fixpoint first_binding {A} (d : list (string * A)) (key : string) : option A :=
  match d with
  | [] => None
  | (k, v) :: d' => if String.eqb k key then Some v else first_binding d' key
  end.

(** [row.get(key)]: the last assignment to [key] is the one that counts. *)
Definition row_get (d : list (string * option string)) (key : string) : option string :=
  match first_binding (rev d) key with
  | Some v => v
  | None => None
  end.

(** [row[key].strip() if row.get(key) else ''] *)
Definition stripped_field (d : list (string * option string)) (key : string) : string :=
  match row_get d key with
  | Some v => if str_empty v then "" else strip v
  | None => ""
  end.

(** The body of [for row_num, row in enumerate(reader, start=2)] on the
    records that follow the header.  The reader passes over an empty
    record without counting it. *)
Fixpoint load_rows (fieldnames : list string) (rows : list (list string)) (row_num : N)
    (master_data : gmap string MasterEntry) : gmap string MasterEntry :=
  match rows with
  | [] => master_data
  | [] :: rest => load_rows fieldnames rest row_num master_data
  | row :: rest =>
      let d := DictReader_row fieldnames row in
      let kode_dp := stripped_field d "Kode_DP" in
      let city := stripped_field d "City" in
      let rk := stripped_field d "RK" in
      if str_empty kode_dp || str_empty city || str_empty rk
      then load_rows fieldnames rest (row_num + 1) master_data
      else load_rows fieldnames rest (row_num + 1)
             (<[kode_dp := {| City := city; RK := rk; row_number := row_num |}]>
                master_data)
  end.

(** The statements of [load_master_data] under [with open(...)] and the
    test that follows them; [None] stands for every exception, which the
    caller turns into [None]. *)
Definition load_records (reading : CsvReading) : option (gmap string MasterEntry) :=
  match records reading with
  | [] => None
  | fieldnames :: rows =>
      match fieldnames with
      | [] => None
      | _ =>
          let cleaned_fieldnames := map strip fieldnames in
          let missing_fields :=
            List.filter (λ field, negb (bool_decide (field ∈ cleaned_fieldnames)))
                        required_fields in
          match missing_fields with
          | _ :: _ => None
          | [] =>
              let master_data := load_rows fieldnames rows 2 ∅ in
              match reader_raises reading with
              | Some _ => None
              | None => if bool_decide (master_data = ∅) then None else Some master_data
              end
          end
      end
  end.

(** [load_master_data(filename)]: [MASTER_DATA_FILE] is the setting of
    [Config], [fs] the file system and [open_csv] what opening a path and
    reading it with [csv.reader] gives. *)
Definition load_master_data (MASTER_DATA_FILE : string) (fs : string → PathKind)
    (open_csv : string → reply CsvReading) (filename : option string)
  : option (gmap string MasterEntry) :=
  let filename :=
    match filename with
    | None => MASTER_DATA_FILE
    | Some f => if str_empty f then MASTER_DATA_FILE else f
    end in
  match validate_file_exists fs (Some filename) with
  | Fault _ => None
  | Reply file_path =>
      match open_csv file_path with
      | Fault _ => None
      | Reply reading => load_records reading
      end
  end.

(** The complete rows of a reference file, in the words of a reader: the
    records after the header that are not empty, numbered from 2, of which
    those are kept whose three fields are not empty once stripped. *)
Definition entry_of (fieldnames : list string) (i : nat) (row : list string)
  : option (string * MasterEntry) :=
  let d := DictReader_row fieldnames row in
  let kode_dp := stripped_field d "Kode_DP" in
  let city := stripped_field d "City" in
  let rk := stripped_field d "RK" in
  if str_empty kode_dp || str_empty city || str_empty rk then None
  else Some (kode_dp, {| City := city; RK := rk; row_number := 2 + N.of_nat i |}).

Definition nonblank (row : list string) : bool :=
  match row with [] => false | _ => true end.

Definition master_entries (fieldnames : list string) (rows : list (list string))
  : list (string * MasterEntry) :=
  omap id (imap (entry_of fieldnames) (List.filter nonblank rows)).

(** A reference file of three columns whose header pads the name of the
    city column with a blank. *)
Definition padded_header_file : CsvReading :=
  {| records := [["Kode_DP"; " City"; "RK"]; ["A1"; "CityX"; "RegionY"]];
     reader_raises := None |}.

(** A reference file with two complete rows for A1 around an empty record
    and a row without a city. *)
Definition sample_file : CsvReading :=
  {| records := [["Kode_DP"; "City"; "RK"];
                 ["A1"; "CityX"; "RegionY"];
                 [];
                 ["B2"; ""; "RegionZ"];
                 [" A1 "; "CityW"; "RegionV"; "extra"]];
     reader_raises := None |}.

(** [emitting P m]: whatever the state, [m] goes through events of the
    kind [P] only. *)
Definition emitting {W A} (P : Event → bool) (m : M W A) : Prop :=
  ∀ s, Forall (λ e, P e = true) (m s).2.

(** An attempt is started with the city and the RK that the table
    [master_data] holds for its code. *)
Definition from_table (master_data : gmap string MasterEntry) (e : Event) : bool :=
  match e with
  | EvAttempt city rk kode_dp_value =>
      match master_data !! kode_dp_value with
      | Some data => String.eqb city (City data) && String.eqb rk (RK data)
      | None => false
      end
  | _ => true
  end.

(** A whole run with the table of [sample_file] and a work list of A1, on
    the page that obliges for A1. *)
Definition table_run : res bool * Bot nat * list Event :=
  @run_automation nat (scripted (obliging "A1" created)) sample_config
    (load_master_data "master_data_dp.csv" (λ _, RegularFile) (λ _, Reply sample_file)
                      None)
    (Ok ["A1"]) (new_bot 0%nat 0).

(* ===================================================================== *)
(** * The daily work list *)
(* ===================================================================== *)

Lemma first_occurrences_elem (l : list string) (x : string) :
  x ∈ first_occurrences l ↔ x ∈ l.
Proof.
  induction l as [|a l IH]; simpl; [done|].
  rewrite !elem_of_cons, list_elem_of_filter, IH.
  destruct (decide (x = a)); tauto.
Qed.

Lemma first_occurrences_NoDup (l : list string) : NoDup (first_occurrences l).
Proof.
  induction l as [|a l IH]; simpl; [constructor|].
  constructor.
  - rewrite list_elem_of_filter. tauto.
  - by apply NoDup_filter.
Qed.

Lemma filter_split {A} (P : A → Prop) `{!∀ x, Decision (P x)} (l : list A) :
  ∀ l1 x l2, filter P l = l1 ++ x :: l2 →
  ∃ k1 k2, l = k1 ++ x :: k2 ∧ filter P k1 = l1 ∧ filter P k2 = l2 ∧ P x.
Proof.
  induction l as [|a l IH]; intros l1 x l2 Hf.
  - by destruct l1.
  - rewrite filter_cons in Hf. destruct (decide (P a)) as [Ha|Ha].
    + destruct l1 as [|b l1]; simpl in Hf; injection Hf as Hab Hf; subst.
      * by exists [], l.
      * destruct (IH _ _ _ Hf) as (k1 & k2 & -> & <- & <- & Hx).
        exists (b :: k1), k2. by rewrite filter_cons_True.
    + destruct (IH _ _ _ Hf) as (k1 & k2 & -> & <- & <- & Hx).
      exists (a :: k1), k2. by rewrite filter_cons_False.
Qed.

Lemma first_occurrences_order (l : list string) :
  ∀ r1 x r2 y r3, first_occurrences l = r1 ++ x :: r2 ++ y :: r3 →
  ∃ pre post, l = pre ++ (x :: post) ∧ (x ∉ pre) ∧ (y ∉ pre).
Proof.
  induction l as [|a l IH]; intros r1 x r2 y r3 Hfo; simpl in Hfo.
  - by destruct r1.
  - destruct r1 as [|b r1]; simpl in Hfo; injection Hfo as Hab Hfo; subst.
    + exists [], l. split_and!; [done|apply not_elem_of_nil..].
    + destruct (filter_split _ _ _ _ _ Hfo) as (k1 & k2 & Hl & _ & Hk2 & Hx).
      destruct (filter_split _ _ _ _ _ Hk2) as (k3 & k4 & -> & _ & _ & Hy).
      destruct (IH _ _ _ _ _ Hl) as (pre & post & -> & Hxp & Hyp).
      exists (b :: pre), post. rewrite !not_elem_of_cons. naive_solver.
Qed.

Lemma read_lines_spec (lines : list string) :
  ∀ seen acc,
    read_lines lines seen acc = acc ++ filter (λ y, y ∉ seen) (work_list_spec lines).
Proof.
  unfold work_list_spec.
  induction lines as [|raw rest IH]; intros seen acc; simpl.
  - by rewrite app_nil_r.
  - rewrite filter_cons.
    destruct (decide (kept_line (strip raw) = true)) as [Hkept|Hkept];
      unfold kept_line in Hkept;
      destruct (str_empty (strip raw)), (startswith (strip raw) "#");
      simpl in *; try done; try apply IH.
    rewrite filter_cons, list_filter_filter.
    case_bool_decide as Hseen.
    + rewrite decide_False by naive_solver. rewrite IH. f_equal.
      apply list_filter_iff. intros y. split; [|naive_solver].
      intros Hy. split; [done|]. by intros ->.
    + rewrite decide_True by done. rewrite IH, <- app_assoc. simpl. do 2 f_equal.
      apply list_filter_iff. intros y. set_solver.
Qed.

Lemma read_daily_input_spec (lines : list string) :
  read_daily_input (Ok lines) = work_list_spec lines.
Proof.
  unfold read_daily_input. rewrite read_lines_spec. simpl.
  induction (work_list_spec lines) as [|x l IH]; [done|].
  rewrite filter_cons_True by set_solver. by rewrite IH.
Qed.

(** C9.  The work list read from the lines of the daily input file is the
    list of the stripped lines that are not empty and do not start with '#',
    each code kept at its first occurrence: it has no duplicate, it has the
    same codes as the kept lines, and a code that stands before another one in
    it occurs in the file before every occurrence of that other one.  A file
    that cannot be read gives the empty list. *)
Theorem read_daily_input_first_seen (lines : list string) :
  let kept := filter (λ l, kept_line l = true) (map strip lines) in
  let work := read_daily_input (Ok lines) in
  work = first_occurrences kept
  ∧ NoDup work
  ∧ (∀ x, x ∈ work ↔ x ∈ map strip lines ∧ x ≠ "" ∧ startswith x "#" = false)
  ∧ (∀ r1 x r2 y r3, work = r1 ++ x :: r2 ++ y :: r3 →
       ∃ pre post, kept = pre ++ (x :: post) ∧ (x ∉ pre) ∧ (y ∉ pre))
  ∧ (∀ e, read_daily_input (Raise e) = []).
Proof.
  intros kept work. subst work. rewrite read_daily_input_spec.
  unfold work_list_spec. fold kept. split_and!.
  - done.
  - apply first_occurrences_NoDup.
  - intros x. rewrite first_occurrences_elem. subst kept.
    rewrite list_elem_of_filter. unfold kept_line.
    rewrite andb_true_iff, !negb_true_iff.
    assert (str_empty x = false ↔ x ≠ "") by (by destruct x).
    tauto.
  - apply first_occurrences_order.
  - done.
Qed.

(* ===================================================================== *)
(** * Running a computation *)
(* ===================================================================== *)

Section Facts.
Context {W : Type} `{!Browser W}.

Lemma bind_Ok {A B} (m : M W A) (k : A → M W B) s a s1 t1 :
  m s = (Ok a, s1, t1) →
  bind m k s = (let '(r, s2, t2) := k a s1 in (r, s2, t1 ++ t2)).
Proof. intros Hm. unfold bind. rewrite Hm. by destruct (k a s1) as [[??]?]. Qed.

Lemma bind_Raise {A B} (m : M W A) (k : A → M W B) s e s1 t1 :
  m s = (Raise e, s1, t1) → bind m k s = (Raise e, s1, t1).
Proof. intros Hm. unfold bind. by rewrite Hm. Qed.

Lemma time_sleep_run ms (s : Bot W) :
  ∃ s', time_sleep ms s = (Ok tt, s', [EvCall (Sleep ms) (now s) (Ok AUnit)])
        ∧ now s + ms ≤ now s'
        ∧ processed_dps s' = processed_dps s ∧ stats s' = stats s.
Proof. eexists. split; [reflexivity|]. simpl. split_and!; [lia|done..]. Qed.

Lemma perform_run {A} c (inj : A → Answer) op (s : Bot W) :
  ∃ r s', perform c inj op s = (res_of_reply r, s', [EvCall c (now s) (answered inj r)])
          ∧ now s ≤ now s'
          ∧ processed_dps s' = processed_dps s ∧ stats s' = stats s.
Proof.
  unfold perform. destruct (op (page s)) as [r w'].
  exists r. eexists. split; [reflexivity|]. simpl. split_and!; [lia|done..].
Qed.

(* =================================================================== *)
(** ** check_ticket_creation_status *)
(* =================================================================== *)

Lemma spaced_cons a (l : list N) :
  Forall (λ b, a + 500 ≤ b) l → spaced l → spaced (a :: l).
Proof. destruct l as [|b l]; [done|]. intros Hall Hl. split; [|done]. by inversion Hall. Qed.

(** With two turns for each second left, the polling loop ends by itself:
    it never runs out of turns. *)
Lemma poll_loop_run (fuel : nat) (deadline : N) :
  ∀ s : Bot W,
    deadline - now s ≤ 500 * N.of_nat fuel →
    ∃ r s' t empties last,
      poll_loop fuel deadline s = (match r with Ok o => Ok (Some o) | Raise e => Raise e end, s', t)
      ∧ polls t = empties ++ last
      ∧ Forall (empty_poll deadline) empties
      ∧ poll_end deadline (now s') last r
      ∧ Forall (λ p, now s ≤ p.1) (polls t)
      ∧ spaced ((polls t).*1)
      ∧ sleeps t = replicate (length empties) 500
      ∧ (length empties ≤ fuel)%nat
      ∧ processed_dps s' = processed_dps s ∧ stats s' = stats s.
Proof.
  induction fuel as [|fuel IH]; intros s Hfuel.
  - exists (Ok TIMEOUT), s, [], [], [].
    assert ((now s <? deadline) = false) as Hlt by (apply N.ltb_ge; lia).
    simpl. unfold bind, time_time. rewrite Hlt. simpl.
    split_and!; try done; try constructor. apply N.ltb_ge in Hlt. lia.
  - destruct (now s <? deadline) eqn:Hlt.
    2:{ exists (Ok TIMEOUT), s, [], [], [].
        simpl. unfold bind at 1, time_time. rewrite Hlt. simpl.
        split_and!; try done; try constructor; try lia. apply N.ltb_ge in Hlt. lia. }
    apply N.ltb_lt in Hlt.
    destruct (perform_run (ExecuteScript poll_script) AValue
                (driver_execute_script poll_script) s)
      as (ans & s1 & Hrun & Hnow1 & Hp1 & Hst1).
    assert (poll_loop (S fuel) deadline s =
            bind (execute_script poll_script)
              (λ response,
                 if truthy response then
                   match response with
                   | PyDict d => if eq_200 (dict_get d "code") then ret (Some SUCCESS)
                                 else ret (Some FAIL)
                   | _ => raise (Exception "AttributeError")
                   end
                 else time_sleep 500 >> poll_loop fuel deadline) s) as ->.
    { simpl. unfold bind at 1, time_time.
      rewrite (proj2 (N.ltb_lt _ _) Hlt). simpl.
      by destruct (bind _ _ s) as [[??]?]. }
    unfold execute_script.
    destruct ans as [response|cls]; simpl in Hrun.
    2:{ rewrite (bind_Raise _ _ _ _ _ _ Hrun).
        exists (Raise (Exception cls)), s1, [EvCall (ExecuteScript poll_script) (now s)
                                               (Raise (Exception cls))], [],
               [(now s, Raise (Exception cls))].
        split_and!; try done; try (by constructor).
        - repeat constructor. simpl. lia. }
    rewrite (bind_Ok _ _ _ _ _ _ Hrun).
    destruct (truthy response) eqn:Htruthy.
    + assert (∃ r, (match response with
                    | PyDict d => if eq_200 (dict_get d "code") then ret (Some SUCCESS)
                                  else ret (Some FAIL)
                    | _ => raise (Exception "AttributeError")
                    end : M W (option AttemptOutcome)) s1
                   = (match r with Ok o => Ok (Some o) | Raise e => Raise e end, s1, [])
                   ∧ poll_end deadline (now s1) [(now s, Ok response)] r)
        as (r & -> & Hend).
      { destruct response as [| | | | | |d];
          try (exists (Raise (Exception "AttributeError")); split; [done|];
               by constructor).
        exists (Ok (if eq_200 (dict_get d "code") then SUCCESS else FAIL)).
        split; [by destruct (eq_200 _)|]. by constructor. }
      exists r, s1,
        [EvCall (ExecuteScript poll_script) (now s) (Ok (AValue response))], [],
        [(now s, Ok response)].
      split_and!; try done; try (by constructor); try (simpl; lia).
    + destruct (time_sleep_run 500 s1) as (s2 & Hsleep & Hnow2 & Hp2 & Hst2).
      destruct (IH s2) as (r & s' & t & empties & last & Hloop & Hpolls & Hempty
                           & Hend & Hafter & Hspaced & Hsleeps & Hlen & Hp' & Hst');
        [lia|].
      exists r, s',
        (EvCall (ExecuteScript poll_script) (now s) (Ok (AValue response))
           :: EvCall (Sleep 500) (now s1) (Ok AUnit) :: t),
        ((now s, Ok response) :: empties), last.
      split_and!.
      * rewrite (bind_Ok _ _ _ _ _ _ Hsleep), Hloop. by destruct r.
      * simpl. by rewrite <- Hpolls.
      * constructor; [|done]. split; [done|]. by exists response.
      * done.
      * simpl. constructor; [simpl; lia|].
        eapply Forall_impl; [exact Hafter|]. simpl. intros; lia.
      * simpl. apply spaced_cons; [|done].
        apply Forall_fmap. eapply Forall_impl; [exact Hafter|]. simpl. intros; lia.
      * simpl. by rewrite Hsleeps.
      * simpl. lia.
      * congruence.
      * congruence.
Qed.



(* =================================================================== *)
(** ** The parse-error marker *)
(* =================================================================== *)


(* =================================================================== *)
(** ** Computations that only browse *)
(* =================================================================== *)

Lemma browsing_weaken {A} (P Q : Event → bool) (m : M W A) :
  (∀ e, P e = true → Q e = true) → browsing P m → browsing Q m.
Proof.
  intros HPQ Hm s. specialize (Hm s). destruct (m s) as [[r s'] t].
  destruct Hm as (? & ? & ? & ? & Ht). split_and!; try done.
  eapply Forall_impl; [exact Ht|]. auto.
Qed.

Lemma browsing_ret {A} P (a : A) : browsing (W:=W) P (ret a).
Proof. intros s. simpl. split_and!; try done; lia. Qed.

Lemma browsing_raise {A} P cls : browsing P (raise (Exception cls) : M W A).
Proof. intros s. simpl. split_and!; try done; lia. Qed.

Lemma browsing_emit P e : P e = true → browsing (W:=W) P (emit e).
Proof. intros He s. simpl. split_and!; try done; try lia; by constructor. Qed.

Lemma browsing_time_time P : browsing (W:=W) P time_time.
Proof. intros s. simpl. split_and!; try done; lia. Qed.

Lemma browsing_bind {A B} P (m : M W A) (k : A → M W B) :
  browsing P m → (∀ a, browsing P (k a)) → browsing P (bind m k).
Proof.
  intros Hm Hk s. unfold bind. specialize (Hm s).
  destruct (m s) as [[[a|e] s1] t1]; [|exact Hm].
  specialize (Hk a s1). destruct (k a s1) as [[r s2] t2].
  destruct Hm as (_ & ? & ? & ? & ?), Hk as (? & ? & ? & ? & ?).
  split_and!; [done|congruence|congruence|lia|by apply Forall_app].
Qed.

Lemma browsing_perform {A} P c (inj : A → Answer) op :
  (∀ at_ms a, P (EvCall c at_ms a) = true) → browsing P (perform c inj op).
Proof.
  intros HP s. unfold perform. destruct (op (page s)) as [r w'].
  simpl. split_and!; try done; try lia; try (by destruct r); by constructor.
Qed.

Lemma browsing_sleep P ms :
  (∀ at_ms a, P (EvCall (Sleep ms) at_ms a) = true) → browsing P (time_sleep ms).
Proof. intros HP s. simpl. split_and!; try done; try lia; by constructor. Qed.

Lemma browsing_try_except_Exception {A} P (body handler : M W A) :
  browsing P body → browsing P handler →
  browsing P (try_except_Exception body handler).
Proof.
  intros Hb Hh s. unfold try_except_Exception. specialize (Hb s).
  destruct (body s) as [[[a|[|cls]] s1] t1]; try exact Hb.
  specialize (Hh s1). destruct (handler s1) as [[r s2] t2].
  destruct Hb as (_ & ? & ? & ? & ?), Hh as (? & ? & ? & ? & ?).
  split_and!; [done|congruence|congruence|lia|by apply Forall_app].
Qed.

Lemma browsing_try_except {A} P (body handler : M W A) :
  browsing P body → browsing P handler → browsing P (try_except body handler).
Proof.
  intros Hb Hh s. unfold try_except. specialize (Hb s).
  destruct (body s) as [[[a|e] s1] t1]; try exact Hb.
  specialize (Hh s1). destruct (handler s1) as [[r s2] t2].
  destruct Hb as (_ & ? & ? & ? & ?), Hh as (? & ? & ? & ? & ?).
  split_and!; [done|congruence|congruence|lia|by apply Forall_app].
Qed.

(** A computation that only browses and catches every [Exception] returns. *)
Lemma browsing_returns {A} P (body handler : M W A) s :
  browsing P body → (∀ s1, ∃ a, (handler s1).1.1 = Ok a) →
  ∃ a s' t, try_except_Exception body handler s = (Ok a, s', t).
Proof.
  intros Hb Hh. unfold try_except_Exception. specialize (Hb s).
  destruct (body s) as [[[a|[|cls]] s1] t1]; [by eauto|by destruct Hb|].
  destruct (Hh s1) as [a Ha]. destruct (handler s1) as [[r s2] t2].
  simpl in Ha. subst r. eauto.
Qed.
End Facts.

(** Steps of a proof that a computation only browses. *)
Create HintDb browsing.

Ltac browse_step :=
  match goal with
  | H : browsing ?P ?m |- browsing ?P ?m => exact H
  | |- browsing _ (ret _) => apply browsing_ret
  | |- browsing _ (raise _) => apply browsing_raise
  | |- browsing _ time_time => apply browsing_time_time
  | |- browsing _ (emit _) => apply browsing_emit; reflexivity
  | |- browsing _ (time_sleep _) => apply browsing_sleep; intros; reflexivity
  | |- browsing _ (perform _ _ _) => apply browsing_perform; intros; reflexivity
  | |- browsing _ (try_except_Exception _ _) => apply browsing_try_except_Exception
  | |- browsing _ (try_except _ _) => apply browsing_try_except
  | |- browsing _ (bind _ _) => apply browsing_bind; [|intros ?]
  | |- browsing _ (if ?b then _ else _) => destruct b
  | |- browsing _ (match ?x with _ => _ end) => destruct x
  | |- browsing _ (let _ := _ in _) => cbv zeta
  | |- browsing _ (wait_for_element _ _ _) => unfold wait_for_element
  | |- browsing _ (safe_click _ _ _) => unfold safe_click
  | |- browsing _ (handle_vue_select_dropdown _ _) => unfold handle_vue_select_dropdown
  | |- browsing _ (wait_for_page_load _) => unfold wait_for_page_load
  | |- browsing _ (execute_script _) => unfold execute_script
  | |- browsing _ (find_element _ _) => unfold find_element
  | |- browsing _ (wait_presence _ _ _) => unfold wait_presence
  | |- browsing _ (get _) => unfold get
  | |- browsing _ refresh => unfold refresh
  | |- browsing _ current_url => unfold current_url
  | |- browsing _ (is_displayed _) => unfold is_displayed
  | |- browsing _ (text _) => unfold text
  | |- browsing _ (clear _) => unfold clear
  | |- browsing _ (send_keys _ _) => unfold send_keys
  | |- browsing _ create_driver => unfold create_driver
  | |- browsing _ _ => solve [auto 1 with browsing nocore]
  end.

Ltac browse := repeat browse_step.

Section Browsing.
Context {W : Type} `{!Browser W}.

Lemma steady_routine e : steady e = true → routine e = true.
Proof. unfold steady. by intros [[? _]%andb_true_iff _]%andb_true_iff. Qed.

Lemma routine_unmarked e : routine e = true → unmarked e = true.
Proof. unfold routine. by intros [? _]%andb_true_iff. Qed.

Lemma no_data_displayed_browsing selectors :
  browsing (W:=W) steady (no_data_displayed selectors).
Proof. induction selectors as [|sel rest IH]; simpl; browse. Qed.
Hint Resolve no_data_displayed_browsing : browsing.

Lemma validate_attempt_browsing expected max_attempts attempt :
  browsing (W:=W) steady (validate_attempt expected max_attempts attempt).
Proof. unfold validate_attempt. browse. Qed.
Hint Resolve validate_attempt_browsing : browsing.

Lemma validate_loop_browsing expected max_attempts attempts :
  browsing (W:=W) steady (validate_loop expected max_attempts attempts).
Proof. induction attempts as [|a rest IH]; simpl; browse. Qed.

Lemma validate_filter_result_browsing expected max_attempts :
  browsing (W:=W) routine (validate_filter_result expected max_attempts).
Proof.
  unfold validate_filter_result. browse.
  eapply browsing_weaken; [apply steady_routine|apply validate_loop_browsing].
Qed.
Hint Resolve validate_filter_result_browsing : browsing.

Lemma poll_loop_browsing fuel deadline :
  browsing (W:=W) steady (poll_loop fuel deadline).
Proof. induction fuel as [|fuel IH]; simpl; browse. Qed.
Hint Resolve poll_loop_browsing : browsing.

Lemma check_ticket_creation_status_browsing timeout :
  browsing (W:=W) steady (check_ticket_creation_status timeout).
Proof. unfold check_ticket_creation_status. browse. Qed.

Lemma filter_loop_browsing turns filter_button kode :
  browsing (W:=W) routine (filter_loop turns filter_button kode).
Proof. induction turns as [|turns IH]; simpl; browse. Qed.
Hint Resolve filter_loop_browsing : browsing.

Lemma create_ticket_browsing : browsing (W:=W) unmarked create_ticket.
Proof.
  unfold create_ticket. browse.
  all: eapply browsing_weaken; [|apply check_ticket_creation_status_browsing].
  all: intros e He; by apply routine_unmarked, steady_routine.
Qed.
Hint Resolve create_ticket_browsing : browsing.

Lemma inject_network_listener_browsing :
  browsing (W:=W) routine inject_network_listener.
Proof. unfold inject_network_listener. browse. Qed.
Hint Resolve inject_network_listener_browsing : browsing.

Lemma navigate_to_dp_menu_browsing cfg :
  browsing (W:=W) routine (navigate_to_dp_menu cfg).
Proof. unfold navigate_to_dp_menu. browse. Qed.

Lemma login_attempt_browsing cfg attempt :
  browsing (W:=W) routine (login_attempt cfg attempt).
Proof. unfold login_attempt. browse. Qed.
Hint Resolve login_attempt_browsing : browsing.

Lemma login_browsing cfg : browsing (W:=W) routine (login cfg).
Proof.
  unfold login. browse. induction (range 3) as [|a rest IH]; simpl; browse.
Qed.

Lemma process_ticket_creation_steps_browsing city rk kode :
  browsing (W:=W) unmarked (process_ticket_creation_steps city rk kode).
Proof.
  unfold process_ticket_creation_steps. browse.
  eapply browsing_weaken; [apply routine_unmarked|apply filter_loop_browsing].
Qed.

(** An attempt returns: it raises nothing.  Its events start with its own
    mark and end with the one of its outcome, with no mark in between, and
    it leaves [processed_dps] and [stats] as they are. *)
Lemma process_ticket_creation_run city rk kode (s : Bot W) :
  ∃ r s' t,
    process_ticket_creation_steps city rk kode s = (r, s', t)
    ∧ process_ticket_creation city rk kode s
      = (Ok (caught r), s', EvAttempt city rk kode :: t ++ [EvOutcome kode (caught r)])
    ∧ processed_dps s' = processed_dps s ∧ stats s' = stats s
    ∧ Forall (λ e, unmarked e = true) t.
Proof.
  pose proof (process_ticket_creation_steps_browsing city rk kode s) as Hb.
  unfold process_ticket_creation, bind, emit, try_except_Exception. simpl.
  destruct (process_ticket_creation_steps city rk kode s) as [[[o|[|cls]] s'] t];
    destruct Hb as (Hint & ? & ? & _ & ?); try done.
  - exists (Ok o), s', t. by split_and!.
  - exists (Raise (Exception cls)), s', t. simpl. by rewrite !app_nil_r.
Qed.

(** The recovery returns.  Its first event is the page refresh and its
    last one tells what it returned; no attempt is started in it. *)
Lemma handle_page_refresh_and_navigation_run cfg (s : Bot W) :
  ∃ recovered s' a t,
    handle_page_refresh_and_navigation cfg s
      = (Ok recovered, s', EvCall Refresh (now s) a :: t ++ [EvRecovered recovered])
    ∧ processed_dps s' = processed_dps s ∧ stats s' = stats s
    ∧ Forall (λ e, routine e = true) t.
Proof.
  unfold handle_page_refresh_and_navigation, bind at 1.
  unfold try_except_Exception, bind at 1.
  unfold refresh at 1, perform at 1.
  destruct (driver_refresh (page s)) as [[[]|cls] w1]; simpl.
  2:{ by eexists false, _, _, []. }
  match goal with
  | |- context [bind ?m ?k ?s1] =>
      assert (browsing routine (bind m k)) as Hb
        by (browse; apply navigate_to_dp_menu_browsing);
      specialize (Hb s1); destruct (bind m k s1) as [[[b|[|cls]] s2] t2]
  end; simpl in *; destruct Hb as (? & ? & ? & _ & ?); try done.
  - eexists b, s2, _, t2. by rewrite ?app_nil_r.
  - eexists false, s2, _, t2. by rewrite ?app_nil_r.
Qed.
End Browsing.

(** Runs a computation on a state: the answers of the browser become
    variables. *)
Ltac run_calls :=
  repeat (simpl;
          match goal with
          | |- context [match ?op ?w with (_, _) => _ end] =>
              lazymatch type of w with
              | Bot _ => fail
              | _ => destruct (op w) as [[?|?] ?] eqn:?
              end
          | |- context [match ?x with Some _ => _ | None => _ end] =>
              is_var x; destruct x
          | |- context [if ?b then _ else _] => is_var b; destruct b
          end).

Ltac undecided_tac :=
  repeat first
    [ assumption
    | apply Forall_nil_2
    | apply Forall_cons_2; [by split|]
    | apply Forall_app_2 ].

Section Validation.
Context {W : Type} `{!Browser W}.

Lemma undecided_app (t1 t2 : list Event) :
  undecided t1 → undecided t2 → undecided (t1 ++ t2).
Proof. apply Forall_app_2. Qed.

Lemma decided_cons expected status e t :
  indicator_shown e = false → cell_text_of e = None →
  decided expected status t → decided expected status (e :: t).
Proof.
  intros He1 He2 Ht. assert (undecided [e]) as Hu by (by repeat constructor).
  inversion Ht; subst; rewrite ?app_comm_cons; constructor; try done;
    by apply (undecided_app [e]).
Qed.

Lemma decided_app expected status pre t :
  undecided pre → decided expected status t → decided expected status (pre ++ t).
Proof.
  induction 1 as [|e pre [He1 He2] _ IH]; intros Ht; [done|].
  simpl. apply decided_cons; auto.
Qed.

Lemma no_data_displayed_run selectors :
  ∀ s : Bot W,
    ∃ shown s' t,
      no_data_displayed selectors s = (Ok shown, s', t)
      ∧ if shown
        then ∃ pre e at_ms,
               t = pre ++ [EvCall (IsDisplayed e) at_ms (Ok (ABool true))]
               ∧ undecided pre
        else undecided t.
Proof.
  induction selectors as [|sel rest IH]; intros s.
  - exists false, s, []. split; [done|constructor].
  - simpl. unfold bind at 1, try_except, bind, find_element, is_displayed, perform.
    run_calls; simpl.
    all: try match goal with
           | |- context [if ?b then _ else _] => destruct b; simpl
           end.
    all: try match goal with
           | |- context [no_data_displayed _ ?s1] =>
               destruct (IH s1) as (shown & s' & t & -> & Hshown)
           end.
    all: eexists _, _, _; (split; [reflexivity|]).
    all: try (destruct shown;
              [destruct Hshown as (pre & e & at_ms & -> & Hpre)|]).
    all: try (eexists (_ :: _ :: pre), _, _; split; [reflexivity|]).
    all: try (eexists (_ :: pre), _, _; split; [reflexivity|]).
    all: try (eexists [_], _, _; split; [reflexivity|]).
    all: repeat (constructor; [by split|]); try done; constructor.
Qed.

Lemma validate_attempt_run expected max_attempts attempt (s : Bot W) :
  ∃ r s' t,
    validate_attempt expected max_attempts attempt s = (Ok r, s', t)
    ∧ match r with
      | None => undecided t
      | Some (passed, status) =>
          passed = is_MATCH status ∧ status ≠ VALIDATION_FAILED
          ∧ decided expected status t
      end.
Proof.
  unfold validate_attempt. generalize (SELECTORS "no_data_message") as selectors.
  intros selectors.
  unfold try_except_Exception, bind at 1. simpl.
  unfold bind at 1.
  match goal with
  | |- context [no_data_displayed _ ?s1] =>
      destruct (no_data_displayed_run selectors s1) as (shown & s2 & t2 & -> & Hshown)
  end.
  destruct shown.
  { destruct Hshown as (pre & e & at_ms & -> & Hpre). simpl.
    eexists _, _, _. split; [reflexivity|]. split_and!; [done..|].
    rewrite app_nil_r. apply decided_cons; [done..|]. by constructor. }
  unfold bind, wait_for_element, text, perform.
  destruct (attempt <? max_attempts - 1)%Z.
  all: run_calls; simpl.
  all: try match goal with
         | |- context [if ?b then _ else _] => destruct b eqn:?; simpl
         end.
  all: eexists _, _, _; (split; [reflexivity|]).
  all: simpl; rewrite ?app_nil_r; try (split_and!; [done..|]).
  all: try (apply decided_cons; [done..|]; constructor; [done|];
            first [by apply String.eqb_eq|by apply String.eqb_neq]).
  all: unfold undecided in *; undecided_tac.
Qed.

Lemma validate_loop_run expected max_attempts attempts :
  ∀ s : Bot W,
    ∃ status s' t,
      validate_loop expected max_attempts attempts s
        = (Ok (is_MATCH status, status), s', t)
      ∧ decided expected status t.
Proof.
  induction attempts as [|attempt rest IH]; intros s.
  - exists VALIDATION_FAILED, s, []. split; [done|]. by repeat constructor.
  - simpl. unfold bind at 1.
    destruct (validate_attempt_run expected max_attempts attempt s)
      as (r & s1 & t1 & -> & Hr).
    destruct r as [[passed status]|].
    + destruct Hr as (-> & _ & Hdecided). exists status, s1, (t1 ++ []).
      split; [done|]. by rewrite app_nil_r.
    + destruct (IH s1) as (status & s' & t & -> & Hdecided).
      exists status, s', (t1 ++ t). split; [done|]. by apply decided_app.
Qed.



End Validation.


(** Takes the first element off [pre] in [H : l = pre ++ x :: post]. *)
Ltac peel H pre :=
  destruct pre as [|? pre];
  [simplify_eq/=; eauto|simpl in H; injection H as ? H].

Section Retries.
Context {W : Type} `{!Browser W}.

Lemma marks_unmarked t : Forall (λ e, unmarked e = true) t → marks t = [].
Proof.
  induction 1 as [|e t He _ IH]; [done|].
  change (marks (e :: t))
    with (match mark_of e with Some y => y :: marks t | None => marks t end).
  unfold unmarked in He. by destruct (mark_of e).
Qed.

Lemma marks_routine t : Forall (λ e, routine e = true) t → marks t = [].
Proof.
  intros Ht. apply marks_unmarked. eapply Forall_impl; [exact Ht|].
  apply routine_unmarked.
Qed.

Lemma marks_app t1 t2 : marks (t1 ++ t2) = marks t1 ++ marks t2.
Proof. apply omap_app. Qed.

(** One turn of the loop over the attempts, by the outcome of its attempt
    and of the recovery that may follow. *)
Lemma attempt_body_run cfg city rk kode attempt (s : Bot W) :
  ∃ outcome s1 t1,
    process_ticket_creation city rk kode s = (Ok outcome, s1, t1)
    ∧ marks t1 = [AttemptStarted kode; AttemptReturned kode outcome]
    ∧ ∃ r s' t2,
        attempt_body cfg city rk kode attempt s = (Ok r, s', t1 ++ t2)
        ∧ processed_dps s' = processed_dps s ∧ stats s' = stats s
        ∧ match outcome with
          | SUCCESS => r = Some SUCCESS ∧ s' = s1 ∧ t2 = []
          | TIMEOUT => r = Some TIMEOUT ∧ s' = s1 ∧ t2 = []
          | FAIL =>
              if (attempt <? MAX_RETRIES cfg - 1)%Z then
                ∃ recovered s2 t3,
                  handle_page_refresh_and_navigation cfg s1 = (Ok recovered, s2, t3)
                  ∧ marks t3 = [PageRefreshed; Recovered recovered]
                  ∧ if recovered
                    then r = None
                         ∧ time_sleep (seconds (RETRY_DELAY cfg)) s2
                           = (Ok tt, s', [EvCall (Sleep (seconds (RETRY_DELAY cfg)))
                                                 (now s2) (Ok AUnit)])
                         ∧ t2 = t3 ++ [EvCall (Sleep (seconds (RETRY_DELAY cfg)))
                                              (now s2) (Ok AUnit)]
                    else r = Some FAIL ∧ s' = s2 ∧ t2 = t3
              else r = None ∧ s' = s1 ∧ t2 = []
          end.
Proof.
  destruct (process_ticket_creation_run city rk kode s)
    as (r0 & s1 & t1 & _ & Hrun & Hp1 & Hst1 & Ht1).
  exists (caught r0), s1, (EvAttempt city rk kode :: t1 ++ [EvOutcome kode (caught r0)]).
  split; [done|].
  split. { change (marks (EvAttempt city rk kode :: t1 ++ [EvOutcome kode (caught r0)]))
      with (AttemptStarted kode :: marks (t1 ++ [EvOutcome kode (caught r0)])).
           by rewrite marks_app, marks_unmarked. }
  unfold attempt_body, try_except_Exception, bind at 1. rewrite Hrun.
  destruct (caught r0).
  - eexists _, _, []. simpl. split; [reflexivity|]. by split_and!.
  - destruct (attempt <? MAX_RETRIES cfg - 1)%Z.
    + unfold bind at 1.
      destruct (handle_page_refresh_and_navigation_run cfg s1)
        as (recovered & s2 & a & t3 & Hrec & Hp2 & Hst2 & Ht3).
      rewrite Hrec. destruct recovered; simpl.
      * eexists _, _, _. split; [reflexivity|]. simpl.
        split_and!; [congruence..|].
        eexists true, s2, _. split; [reflexivity|]. split.
        { match goal with
          | |- marks (?e :: ?t ++ ?l) = _ =>
              change (marks (e :: t ++ l)) with (PageRefreshed :: marks (t ++ l))
          end.
          by rewrite marks_app, marks_routine. }
        split_and!; try done; by rewrite app_nil_r.
      * eexists _, _, _. split; [reflexivity|]. simpl.
        split_and!; [congruence..|].
        eexists false, s2, _. split; [reflexivity|]. split.
        { match goal with
          | |- marks (?e :: ?t ++ ?l) = _ =>
              change (marks (e :: t ++ l)) with (PageRefreshed :: marks (t ++ l))
          end.
          by rewrite marks_app, marks_routine. }
        split_and!; try done; by rewrite app_nil_r.
    + eexists _, _, []. simpl. split; [reflexivity|]. by split_and!.
  - eexists _, _, []. simpl. split; [reflexivity|]. by split_and!.
Qed.

(** The loop over the attempts returns, leaves the counters and the
    processed set as they are, and its landmarks are those of
    [retry_marks]. *)
Lemma attempt_loop_run cfg city rk kode attempts :
  ∀ s : Bot W,
    ∃ final_status s' t,
      attempt_loop cfg city rk kode attempts s = (Ok final_status, s', t)
      ∧ processed_dps s' = processed_dps s ∧ stats s' = stats s
      ∧ retry_marks cfg kode attempts final_status (marks t).
Proof.
  induction attempts as [|attempt rest IH]; intros s.
  - exists FAIL, s, []. split_and!; try done. constructor.
  - destruct (attempt_body_run cfg city rk kode attempt s)
      as (outcome & s0 & t1 & _ & Hm1 & r & s1 & t2 & Hbody & Hp1 & Hst1 & Hcase).
    simpl. unfold bind. rewrite Hbody.
    destruct outcome.
    + destruct Hcase as (-> & -> & ->). exists SUCCESS, s0, ((t1 ++ []) ++ []).
      split_and!; try done. rewrite !app_nil_r, Hm1. constructor.
    + destruct (attempt <? MAX_RETRIES cfg - 1)%Z eqn:Hlast.
      * destruct Hcase as (recovered & s2 & t3 & _ & Hm3 & Hcase).
        destruct recovered.
        -- destruct Hcase as (-> & _ & ->).
           destruct (IH s1) as (final & s' & t & -> & Hp & Hst & Hm).
           exists final, s', ((t1 ++ t3 ++ [EvCall (Sleep (seconds (RETRY_DELAY cfg)))
                                              (now s2) (Ok AUnit)]) ++ t).
           split_and!; try congruence.
           rewrite !marks_app, Hm1, Hm3. simpl. by constructor.
        -- destruct Hcase as (-> & -> & ->). exists FAIL, s2, ((t1 ++ t3) ++ []).
           split_and!; try done. rewrite app_nil_r, marks_app, Hm1, Hm3. simpl.
           by constructor.
      * destruct Hcase as (-> & -> & ->).
        destruct (IH s0) as (final & s' & t & -> & Hp & Hst & Hm).
        exists final, s', ((t1 ++ []) ++ t).
        split_and!; try congruence.
        rewrite !marks_app, Hm1. simpl. by constructor.
    + destruct Hcase as (-> & -> & ->). exists TIMEOUT, s0, ((t1 ++ []) ++ []).
      split_and!; try done. rewrite !app_nil_r, Hm1. constructor.
Qed.

Lemma bump_handled b st : handled (bump b st) = handled st + 1.
Proof. unfold handled. destruct b; simpl; lia. Qed.

Lemma stats_eta (st : Stats) :
  {| successful := successful st; failed := failed st; skipped := skipped st;
     start_time := start_time st; end_time := end_time st |} = st.
Proof. by destruct st. Qed.

Lemma bump_counters b st :
  bump b st = match b with
              | Successful =>
                  {| successful := successful st + 1; failed := failed st;
                     skipped := skipped st; start_time := start_time st;
                     end_time := end_time st |}
              | Failed =>
                  {| successful := successful st; failed := failed st + 1;
                     skipped := skipped st; start_time := start_time st;
                     end_time := end_time st |}
              | Skipped =>
                  {| successful := successful st; failed := failed st;
                     skipped := skipped st + 1; start_time := start_time st;
                     end_time := end_time st |}
              end.
Proof. unfold bump. destruct b; by rewrite !N.add_0_r. Qed.

(** One item of the work list: what the body of the loop does with it. *)
Lemma process_item_run cfg (master_data : gmap string MasterEntry) kode (s : Bot W) :
  ∃ s' t,
    process_item cfg master_data kode s = (Ok false, s', t)
    ∧ if bool_decide (kode ∈ processed_dps s) then
        t = [] ∧ page s' = page s ∧ now s' = now s
        ∧ processed_dps s' = processed_dps s ∧ stats s' = bump Skipped (stats s)
      else
        match master_data !! kode with
        | None =>
            t = [] ∧ page s' = page s ∧ now s' = now s
            ∧ processed_dps s' = processed_dps s ∧ stats s' = bump Skipped (stats s)
        | Some data =>
            ∃ final_status s1 t1,
              attempt_loop cfg (City data) (RK data) kode (range (MAX_RETRIES cfg)) s
                = (Ok final_status, s1, t1)
              ∧ retry_marks cfg kode (range (MAX_RETRIES cfg)) final_status (marks t1)
              ∧ t = t1 ++ [EvCall (Sleep 1000) (now s1) (Ok AUnit)]
              ∧ stats s' = bump (bucket_of final_status) (stats s)
              ∧ processed_dps s'
                = match final_status with
                  | SUCCESS => {[kode]} ∪ processed_dps s
                  | _ => processed_dps s
                  end
        end.
Proof.
  unfold process_item, bind at 1, get_state.
  destruct (bool_decide (kode ∈ processed_dps s)).
  { eexists _, _. split; [reflexivity|]. simpl.
    split_and!; try done. by rewrite (bump_counters Skipped). }
  destruct (master_data !! kode) as [data|].
  2:{ eexists _, _. split; [reflexivity|]. simpl.
      split_and!; try done. by rewrite (bump_counters Skipped). }
  unfold bind at 1.
  destruct (attempt_loop_run cfg (City data) (RK data) kode (range (MAX_RETRIES cfg)) s)
    as (final & s1 & t1 & -> & Hp & Hst & Hmarks).
  destruct final; simpl.
  all: eexists _, _; (split; [reflexivity|]).
  all: eexists _, s1, t1; (split; [reflexivity|]); (split; [exact Hmarks|]).
  all: simpl; rewrite ?app_nil_r, Hst, ?Hp.
  - split_and!; try done. by rewrite (bump_counters Successful).
  - split_and!; try done. by rewrite (bump_counters Failed).
  - split_and!; try done. by rewrite (bump_counters Skipped).
Qed.

(** In the landmarks of the loop over the attempts, an attempt that
    returned TIMEOUT is the last landmark, and the final status is
    TIMEOUT. *)
Lemma retry_marks_TIMEOUT cfg kode attempts final_status m :
  retry_marks cfg kode attempts final_status m →
  ∀ k pre post, m = pre ++ AttemptReturned k TIMEOUT :: post →
                k = kode ∧ post = [] ∧ final_status = TIMEOUT.
Proof.
  induction 1 as [|a rest|a rest|a rest f m Hlast Hm IH|a rest f m Hlast Hm IH|a rest Hlast];
    intros k pre post Hsplit.
  - by destruct pre.
  - do 2 peel Hsplit pre. by destruct pre.
  - do 2 peel Hsplit pre. by destruct pre.
  - do 2 peel Hsplit pre. eauto.
  - do 4 peel Hsplit pre. eauto.
  - do 4 peel Hsplit pre. by destruct pre.
Qed.

(** The landmarks of the loop over the attempts concern its code only. *)
Lemma retry_marks_kode cfg kode attempts final_status m :
  retry_marks cfg kode attempts final_status m →
  ∀ k, AttemptStarted k ∈ m → k = kode.
Proof.
  induction 1; intros k Hk; repeat (apply elem_of_cons in Hk as [Hk|Hk]; simplify_eq/=);
    try done; try by apply not_elem_of_nil in Hk. all: eauto.
Qed.

Lemma marks_snoc_sleep t ms at_ms a :
  marks (t ++ [EvCall (Sleep ms) at_ms a]) = marks t.
Proof. rewrite marks_app. simpl. apply app_nil_r. Qed.

(* =================================================================== *)
(** ** Codes that are not in the reference table *)
(* =================================================================== *)

(** C4.  A code of the work list that has no entry in the reference table
    goes through no attempt: the body of the loop leaves no event at all,
    neither the page nor the clock moves, one is added to [skipped], and
    [failed], [successful] and the processed set stay as they are. *)
Theorem absent_code_is_skipped cfg (master_data : gmap string MasterEntry)
    (kode : string) (s : Bot W)
    (Habsent : master_data !! kode = None) :
  ∃ s',
    process_item cfg master_data kode s = (Ok false, s', [])
    ∧ page s' = page s ∧ now s' = now s
    ∧ skipped (stats s') = skipped (stats s) + 1
    ∧ failed (stats s') = failed (stats s)
    ∧ successful (stats s') = successful (stats s)
    ∧ processed_dps s' = processed_dps s.
Proof.
  destruct (process_item_run cfg master_data kode s) as (s' & t & Hrun & Hcase).
  rewrite Habsent in Hcase.
  assert (t = [] ∧ page s' = page s ∧ now s' = now s
          ∧ processed_dps s' = processed_dps s ∧ stats s' = bump Skipped (stats s))
    as (-> & ? & ? & ? & Hst) by (by destruct (bool_decide _)).
  exists s'. rewrite Hst. simpl. split_and!; try done; lia.
Qed.

(* =================================================================== *)
(** ** TIMEOUT *)
(* =================================================================== *)

(** Landmarks of the whole loop: an attempt is started only for a code of
    the list, and the processed set grows only by codes of the list that
    are in the reference table. *)
Lemma process_items_run cfg (master_data : gmap string MasterEntry) items :
  ∀ s : Bot W,
    ∃ s' t,
      process_items cfg master_data items s = (Ok tt, s', t)
      ∧ handled (stats s') = handled (stats s) + N.of_nat (length items)
      ∧ start_time (stats s') = start_time (stats s)
      ∧ end_time (stats s') = end_time (stats s)
      ∧ (∀ k, AttemptStarted k ∈ marks t → k ∈ items)
      ∧ processed_dps s ⊆ processed_dps s'
      ∧ (∀ k, k ∈ processed_dps s' →
              k ∈ processed_dps s ∨ (k ∈ items ∧ is_Some (master_data !! k))).
Proof.
  induction items as [|kode rest IH]; intros s.
  - exists s, []. split_and!; try done.
    + simpl. lia.
    + intros k Hk. by apply not_elem_of_nil in Hk.
    + auto.
  - destruct (process_item_run cfg master_data kode s) as (s1 & t1 & Hitem & Hcase).
    destruct (IH s1) as (s' & t & Hrest & Hh & Hst & Het & Hm & Hsub & Hp).
    exists s', (t1 ++ t). simpl. unfold bind. rewrite Hitem, Hrest.
    assert ((∃ b, stats s1 = bump b (stats s))
            ∧ (∀ k, AttemptStarted k ∈ marks t1 → k = kode)
            ∧ processed_dps s ⊆ processed_dps s1
            ∧ (∀ k, k ∈ processed_dps s1 →
                    k ∈ processed_dps s ∨ (k = kode ∧ is_Some (master_data !! k))))
      as ([b Hb] & Hm1 & Hsub1 & Hp1).
    { destruct (bool_decide (kode ∈ processed_dps s)).
      { destruct Hcase as (-> & _ & _ & -> & ->). split_and!; eauto.
        intros k Hk. by apply not_elem_of_nil in Hk. }
      destruct (master_data !! kode) as [data|] eqn:Hdata.
      2:{ destruct Hcase as (-> & _ & _ & -> & ->). split_and!; eauto.
          intros k Hk. by apply not_elem_of_nil in Hk. }
      destruct Hcase as (final & s0 & t0 & _ & Hmarks & -> & -> & Hproc).
      split_and!; eauto.
      - intros k. rewrite marks_snoc_sleep. by apply (retry_marks_kode _ _ _ _ _ Hmarks).
      - rewrite Hproc. destruct final; set_solver.
      - intros k. rewrite Hproc. destruct final; [|by auto..].
        rewrite elem_of_union, elem_of_singleton. intros [->|?]; [|by auto].
        right. split; [done|]. by rewrite Hdata. }
    split_and!; try done.
    + rewrite Hh, Hb, bump_handled. lia.
    + rewrite Hst, Hb. by destruct b.
    + rewrite Het, Hb. by destruct b.
    + intros k. rewrite marks_app, elem_of_app, elem_of_cons.
      intros [Hk|Hk]; [left; by apply Hm1|right; by apply Hm].
    + set_solver.
    + intros k Hk. destruct (Hp k Hk) as [Hk1|[Hk1 ?]].
      * destruct (Hp1 k Hk1) as [?|[-> ?]]; [by auto|]. right. split; [|done].
        apply elem_of_cons. by left.
      * right. split; [|done]. apply elem_of_cons. by right.
Qed.

(** C3.  When an attempt for an item returns TIMEOUT, it is the last
    landmark of the item: no further attempt is started and no recovery is
    run.  One is added to [skipped], [successful] and [failed] stay as they
    are, and the code is not in the processed set after the item, nor after
    the rest of a work list in which it does not occur again, during which
    no attempt is started for it. *)
Theorem TIMEOUT_is_terminal cfg (master_data : gmap string MasterEntry)
    (kode : string) (s s' : Bot W) (r : res bool) (t : list Event)
    (pre post : list Mark)
    (Hrun : process_item cfg master_data kode s = (r, s', t))
    (Htimeout : marks t = pre ++ AttemptReturned kode TIMEOUT :: post) :
  post = []
  ∧ skipped (stats s') = skipped (stats s) + 1
  ∧ successful (stats s') = successful (stats s)
  ∧ failed (stats s') = failed (stats s)
  ∧ processed_dps s' = processed_dps s
  ∧ (kode ∉ processed_dps s')
  ∧ ∀ rest r2 s2 t2,
      kode ∉ rest →
      process_items cfg master_data rest s' = (r2, s2, t2) →
      (kode ∉ processed_dps s2) ∧ (AttemptStarted kode ∉ marks t2).
Proof.
  destruct (process_item_run cfg master_data kode s) as (s0 & t0 & Hitem & Hcase).
  rewrite Hrun in Hitem. injection Hitem as -> <- <-.
  case_bool_decide as Hnew.
  { destruct Hcase as (-> & _). by destruct pre. }
  destruct (master_data !! kode) as [data|].
  2:{ destruct Hcase as (-> & _). by destruct pre. }
  destruct Hcase as (final & s1 & t1 & _ & Hmarks & -> & Hst & Hproc).
  rewrite marks_snoc_sleep in Htimeout.
  destruct (retry_marks_TIMEOUT _ _ _ _ _ Hmarks _ _ _ Htimeout) as (_ & -> & ->).
  rewrite Hst, Hproc. simpl. split_and!; try done; try lia.
  intros rest r2 s2 t2 Hrest Hloop.
  destruct (process_items_run cfg master_data rest s')
    as (s3 & t3 & Hloop' & _ & _ & _ & Hstarted & _ & Hgrow).
  rewrite Hloop in Hloop'. injection Hloop' as -> <- <-.
  split.
  - intros Hin. destruct (Hgrow _ Hin) as [Hin'|[Hin' _]]; [|done].
    by rewrite Hproc in Hin'.
  - intros Hin. by apply Hrest, Hstarted.
Qed.

(* =================================================================== *)
(** ** Three failed attempts *)
(* =================================================================== *)


End Retries.

(* ===================================================================== *)
(** * Sample runs of the theorems *)
(* ===================================================================== *)

Lemma absent_code_is_skipped_witness :
  sample_master !! "A2" = None
  ∧ ∃ s', @process_item nat silent_page sample_config sample_master "A2"
            (new_bot 0%nat 0) = (Ok false, s', [])
          ∧ skipped (stats s') = 1 ∧ failed (stats s') = 0.
Proof.
  split; [reflexivity|].
  destruct (@absent_code_is_skipped nat silent_page sample_config sample_master "A2"
              (new_bot 0%nat 0) eq_refl) as (s' & Hrun & _ & _ & Hsk & Hf & _).
  exists s'. split_and!; [exact Hrun|exact Hsk|exact Hf].
Defined.

Lemma silent_run_marks :
  marks silent_run.2 = [AttemptStarted "A1"] ++ AttemptReturned "A1" TIMEOUT :: [].
Proof. vm_compute. reflexivity. Qed.

Lemma TIMEOUT_is_terminal_witness :
  marks silent_run.2 = [AttemptStarted "A1"; AttemptReturned "A1" TIMEOUT]
  ∧ skipped (stats silent_run.1.2) = 1
  ∧ "A1" ∉ processed_dps silent_run.1.2.
Proof.
  destruct (@TIMEOUT_is_terminal nat silent_page sample_config sample_master "A1"
              (new_bot 0%nat 0) silent_run.1.2 silent_run.1.1 silent_run.2
              [AttemptStarted "A1"] [])
    as (_ & Hsk & _ & _ & _ & Hnot & _).
  - unfold silent_run. destruct (process_item _ _ _ _) as [[??]?]. reflexivity.
  - exact silent_run_marks.
  - split; [exact silent_run_marks|]. split; [exact Hsk|exact Hnot].
Defined.


(** Goes through the elements of a list that is written out. *)
Ltac from_list Hin :=
  repeat (apply elem_of_cons in Hin as [Hin|Hin];
          [first [discriminate Hin | injection Hin as <-; reflexivity
                 | injection Hin as _ <-; reflexivity]|]);
  apply elem_of_nil in Hin; destruct Hin.



(* ===================================================================== *)
(** * Further properties of the orchestrator *)
(* ===================================================================== *)

Section Orchestrator.
Context {W : Type} `{!Browser W}.

Lemma retry_marks_SUCCESS cfg kode attempts final_status m :
  retry_marks cfg kode attempts final_status m →
  ∀ k pre post, m = pre ++ AttemptReturned k SUCCESS :: post →
                k = kode ∧ post = [] ∧ final_status = SUCCESS.
Proof.
  induction 1 as [|a rest|a rest|a rest f m Hlast Hm IH|a rest f m Hlast Hm IH|a rest Hlast];
    intros k pre post Hsplit.
  - by destruct pre.
  - do 2 peel Hsplit pre. by destruct pre.
  - do 2 peel Hsplit pre. by destruct pre.
  - do 2 peel Hsplit pre. eauto.
  - do 4 peel Hsplit pre. eauto.
  - do 4 peel Hsplit pre. by destruct pre.
Qed.

(** The landmarks of one item. *)
Lemma process_item_marks cfg (master_data : gmap string MasterEntry) kode
    (s s' : Bot W) r t :
  process_item cfg master_data kode s = (r, s', t) →
  (∀ k, AttemptStarted k ∈ marks t →
        k = kode ∧ kode ∉ processed_dps s ∧ is_Some (master_data !! kode))
  ∧ (∀ k pre post, marks t = pre ++ AttemptReturned k SUCCESS :: post →
        k = kode ∧ post = [] ∧ kode ∈ processed_dps s'
        ∧ stats s' = bump Successful (stats s)
        ∧ is_Some (master_data !! kode))
  ∧ processed_dps s ⊆ processed_dps s'.
Proof.
  intros Hrun.
  destruct (process_item_run cfg master_data kode s) as (s0 & t0 & Hitem & Hcase).
  rewrite Hrun in Hitem. injection Hitem as -> <- <-.
  case_bool_decide as Hnew.
  { destruct Hcase as (-> & _ & _ & -> & _). split_and!; [|by destruct pre|done].
    intros k Hk. by apply elem_of_nil in Hk. }
  destruct (master_data !! kode) as [data|] eqn:Hdata.
  2:{ destruct Hcase as (-> & _ & _ & -> & _). split_and!; [|by destruct pre|done].
      intros k Hk. by apply elem_of_nil in Hk. }
  destruct Hcase as (final & s1 & t1 & _ & Hmarks & -> & Hst & Hproc).
  rewrite marks_snoc_sleep. split_and!.
  - intros k Hk. by rewrite (retry_marks_kode _ _ _ _ _ Hmarks k Hk).
  - intros k pre post Hsplit.
    destruct (retry_marks_SUCCESS _ _ _ _ _ Hmarks _ _ _ Hsplit) as (-> & -> & ->).
    rewrite Hproc, Hst. split_and!; try done. set_solver.
  - rewrite Hproc. destruct final; set_solver.
Qed.

(** In the loop over the items, an attempt is started only for a code that
    was not in the processed set when the loop began. *)
Lemma process_items_fresh cfg (master_data : gmap string MasterEntry) items :
  ∀ (s s' : Bot W) r t,
    process_items cfg master_data items s = (r, s', t) →
    ∀ k, AttemptStarted k ∈ marks t → (k ∉ processed_dps s).
Proof.
  induction items as [|kode rest IH]; intros s s' r t Hrun k Hk.
  - injection Hrun as <- <- <-. by apply elem_of_nil in Hk.
  - simpl in Hrun. unfold bind in Hrun.
    destruct (process_item_run cfg master_data kode s) as (s1 & t1 & Hitem & _).
    rewrite Hitem in Hrun.
    destruct (process_items cfg master_data rest s1) as [[r2 s2] t2] eqn:Hrest.
    injection Hrun as <- <- <-.
    destruct (process_item_marks _ _ _ _ _ _ _ Hitem) as (Hstart & _ & Hgrow).
    rewrite marks_app, elem_of_app in Hk. destruct Hk as [Hk|Hk].
    + by destruct (Hstart k Hk) as (-> & ? & _).
    + intros Hin. apply (IH _ _ _ _ Hrest k Hk). set_solver.
Qed.

(** X1.  In the loop over the work list, once an attempt for a code has
    returned SUCCESS no attempt is started again for that code, also when the
    code occurs again in the list; the code is then in the processed set at
    the end of the loop, it is a code of the list, and the reference table has
    an entry for it. *)
Theorem success_is_not_repeated cfg (master_data : gmap string MasterEntry)
    (items : list string) (s s' : Bot W) (r : res unit) (t : list Event)
    (k : string) (pre post : list Mark)
    (Hloop : process_items cfg master_data items s = (r, s', t))
    (Hsuccess : marks t = pre ++ AttemptReturned k SUCCESS :: post) :
  (AttemptStarted k ∉ post)
  ∧ k ∈ processed_dps s'
  ∧ k ∈ items
  ∧ is_Some (master_data !! k).
Proof.
  revert s s' r t pre post Hloop Hsuccess.
  induction items as [|kode rest IH]; intros s s' r t pre post Hloop Hsuccess.
  - injection Hloop as <- <- <-. by destruct pre.
  - simpl in Hloop. unfold bind in Hloop.
    destruct (process_item_run cfg master_data kode s) as (s1 & t1 & Hitem & _).
    rewrite Hitem in Hloop.
    destruct (process_items cfg master_data rest s1) as [[r2 s2] t2] eqn:Hrest.
    injection Hloop as <- <- <-.
    destruct (process_item_marks _ _ _ _ _ _ _ Hitem) as (Hstart & Hdone & _).
    destruct (process_items_run cfg master_data rest s1)
      as (s3 & t3 & Hrest' & _ & _ & _ & _ & Hgrow & _).
    rewrite Hrest in Hrest'. simplify_eq.
    rewrite marks_app in Hsuccess.
    apply app_eq_inv in Hsuccess as [(mid & Hm1 & Hm2)|(mid & Hm1 & Hm2)].
    + destruct mid as [|m0 mid]; simpl in Hm2.
      * (* the success is the first landmark of the rest *)
        destruct (IH _ _ _ _ [] post Hrest (eq_sym Hm2)) as (? & ? & ? & ?).
        split_and!; try done. by apply elem_of_cons; right.
      * (* the success is among the landmarks of the first item *)
        injection Hm2 as <- ->.
        destruct (Hdone _ _ _ Hm1) as (-> & -> & Hin & _ & Hsome).
        split_and!; try done.
        -- simpl. intros Hk. by apply (process_items_fresh _ _ _ _ _ _ _ Hrest kode Hk).
        -- by apply Hgrow.
        -- by apply elem_of_cons; left.
    + (* the success is further in the rest *)
      destruct (IH _ _ _ _ mid post Hrest Hm2) as (? & ? & ? & ?).
      split_and!; try done. by apply elem_of_cons; right.
Qed.

Lemma cleanup_run (s : Bot W) :
  cleanup s = (Ok tt,
               {| page := driver_manager_cleanup (page s); now := now s;
                  processed_dps := processed_dps s;
                  stats := stamped (now s) (stats s) |}, []).
Proof.
  unfold cleanup, try_except_Exception, bind, get_state, stamped. simpl.
  destruct (start_time (stats s)), (end_time (stats s)); simpl; try done.
  all: by destruct (stats s).
Qed.

Lemma generate_final_report_run total_items (s : Bot W) :
  generate_final_report total_items s
  = (Ok tt,
     {| page := page s; now := now s; processed_dps := processed_dps s;
        stats := reported (now s) (stats s) |},
     match start_time (stats s) with
     | Some _ => [EvReport total_items (successful (stats s)) (failed (stats s))
                           (skipped (stats s))]
     | None => []
     end).
Proof.
  unfold generate_final_report, try_except_Exception, bind, get_state, time_time,
    set_stats, reported. simpl.
  by destruct (start_time (stats s)).
Qed.

Lemma bump_counters_start b st : start_time (bump b st) = start_time st.
Proof. done. Qed.

Lemma stamped_start t st : start_time (stamped t st) = start_time st.
Proof. unfold stamped. by destruct st as [? ? ? [?|] [?|]]. Qed.

Lemma stamped_end t st :
  is_Some (start_time st) → is_Some (end_time (stamped t st)).
Proof. unfold stamped. destruct st as [? ? ? [?|] [?|]]; simpl; try done; by intros [??]. Qed.

Lemma stamped_counters t st : counters (stamped t st) = counters st.
Proof. unfold stamped. by destruct st as [? ? ? [?|] [?|]]. Qed.

Lemma stamped_handled t st : handled (stamped t st) = handled st.
Proof. unfold stamped. by destruct st as [? ? ? [?|] [?|]]. Qed.

Lemma stamped_reported t t' st : stamped t (reported t' st) = reported t' st.
Proof. unfold stamped, reported. simpl. by destruct (start_time st). Qed.

(** The statements of [run_automation] under its [try], with the handler
    of [Exception]. *)
Lemma run_automation_body cfg (master_data : option (gmap string MasterEntry))
    (daily_input : res (list string)) (s : Bot W) :
  let work := read_daily_input daily_input in
  ∃ b s1 t1,
    try_except_Exception
      (match master_data with
       | None => ret false
       | Some master_data =>
           if bool_decide (master_data = ∅) then ret false else
           let kode_dp_list := read_daily_input daily_input in
           match kode_dp_list with
           | [] => ret false
           | _ =>
               let* logged_in := login cfg in
               if negb logged_in then ret false else
               let* on_page := navigate_to_dp_menu cfg in
               if negb on_page then ret false else
               set_processed_dps ∅ >>
               let total_items := N.of_nat (length kode_dp_list) in
               process_items cfg master_data kode_dp_list >>
               generate_final_report total_items >>
               ret true
           end
       end)
      (ret false) s = (Ok b, s1, t1)
    ∧ if b then
        ∃ md pre,
          master_data = Some md ∧ md ≠ ∅ ∧ work ≠ []
          ∧ handled (stats s1) = handled (stats s) + N.of_nat (length work)
          ∧ start_time (stats s1) = start_time (stats s)
          ∧ is_Some (end_time (stats s1))
          ∧ (∀ k, k ∈ processed_dps s1 → k ∈ work ∧ is_Some (md !! k))
          ∧ (∀ k, AttemptStarted k ∈ marks t1 → k ∈ work)
          ∧ t1 = pre ++ match start_time (stats s) with
                        | Some _ => [EvReport (N.of_nat (length work))
                                              (successful (stats s1)) (failed (stats s1))
                                              (skipped (stats s1))]
                        | None => []
                        end
      else
        processed_dps s1 = processed_dps s ∧ stats s1 = stats s
        ∧ Forall (λ e, routine e = true) t1
        ∧ ((master_data = None ∨ master_data = Some ∅ ∨ work = []) → t1 = [] ∧ s1 = s).
Proof.
  intros work. unfold try_except_Exception.
  destruct master_data as [md|].
  2:{ exists false, s, []. split; [done|]. by split_and!. }
  case_bool_decide as Hmd.
  { exists false, s, []. split; [done|]. by split_and!. }
  subst work. destruct (read_daily_input daily_input) as [|kode0 rest0] eqn:Hwork.
  { exists false, s, []. split; [done|]. by split_and!. }
  cbv beta iota zeta.
  assert (kode0 :: rest0 ≠ []) as Hne by done.
  revert Hne. generalize (kode0 :: rest0) as work. intros work Hne.
  assert (¬ (Some md = None ∨ Some md = Some ∅ ∨ work = [])) as Hno.
  { intros [?|[?|?]]; [done|by simplify_eq|done]. }
  unfold bind at 1.
  pose proof (login_browsing cfg s) as Hlogin.
  destruct (login cfg s) as [[r1 s1] t1].
  destruct Hlogin as (Hint1 & Hp1 & Hst1 & _ & Ht1).
  destruct r1 as [[|]|[|cls]]; try done; simpl.
  2,3: by (exists false, s1, (t1 ++ []); rewrite ?app_nil_r; split_and!).
  unfold bind at 1.
  pose proof (navigate_to_dp_menu_browsing cfg s1) as Hnav.
  destruct (navigate_to_dp_menu cfg s1) as [[r2 s2] t2].
  destruct Hnav as (Hint2 & Hp2 & Hst2 & _ & Ht2).
  destruct r2 as [[|]|[|cls]]; try done; simpl.
  2,3: by (exists false, s2, (t1 ++ t2 ++ []); rewrite ?app_nil_r;
           split_and!; [done|congruence|congruence|by apply Forall_app|done]).
  unfold bind, set_processed_dps. simpl.
  match goal with
  | |- context [process_items cfg md work ?s3] =>
      destruct (process_items_run cfg md work s3)
        as (s4 & t4 & -> & Hh & Hstart & Hend & Hmarks & _ & Hproc)
  end.
  rewrite generate_final_report_run. simpl in *.
  eexists true, _, _. split; [reflexivity|].
  exists md, (t1 ++ t2 ++ t4). simpl. split_and!; try done.
  - change (handled (reported (now s4) (stats s4))) with (handled (stats s4)).
    by rewrite Hh, Hst2, Hst1.
  - congruence.
  - intros k Hk. destruct (Hproc k Hk) as [Hk'|?]; [|done]. by apply elem_of_empty in Hk'.
  - intros k. rewrite !marks_app, (marks_routine _ Ht1), (marks_routine _ Ht2).
    simpl. rewrite elem_of_app.
    intros [Hk|Hk]; [by apply Hmarks|].
    destruct (start_time (stats s4)); simpl in Hk; by apply elem_of_nil in Hk.
  - rewrite Hstart, Hst2, Hst1, <- !app_assoc.
    destruct (start_time (stats s)); by rewrite ?app_nil_r.
Qed.

(** What a run does, by its return value. *)
(** What a run does, by its return value. *)
Lemma run_automation_run cfg (master_data : option (gmap string MasterEntry))
    (daily_input : res (list string)) (s : Bot W) :
  let work := read_daily_input daily_input in
  ∃ b s' t,
    run_automation cfg master_data daily_input s = (Ok b, s', t)
    ∧ start_time (stats s') = start_time (stats s)
    ∧ (is_Some (start_time (stats s)) → is_Some (end_time (stats s')))
    ∧ if b then
        ∃ md pre,
          master_data = Some md ∧ md ≠ ∅ ∧ work ≠ []
          ∧ handled (stats s') = handled (stats s) + N.of_nat (length work)
          ∧ (∀ k, k ∈ processed_dps s' → k ∈ work ∧ is_Some (md !! k))
          ∧ (∀ k, AttemptStarted k ∈ marks t → k ∈ work)
          ∧ t = pre ++ match start_time (stats s) with
                       | Some _ => [EvReport (N.of_nat (length work))
                                             (successful (stats s')) (failed (stats s'))
                                             (skipped (stats s'))]
                       | None => []
                       end
      else
        counters (stats s') = counters (stats s)
        ∧ processed_dps s' = processed_dps s
        ∧ marks t = []
        ∧ Forall (λ e, is_report e = false) t
        ∧ ((master_data = None ∨ master_data = Some ∅ ∨ work = []) →
           t = [] ∧ page s' = driver_manager_cleanup (page s) ∧ now s' = now s).
Proof.
  intros work. unfold run_automation, try_finally.
  destruct (run_automation_body cfg master_data daily_input s)
    as (b & s1 & t1 & Hbody & Hcase).
  cbv beta zeta in Hbody |- *. rewrite Hbody, cleanup_run, app_nil_r.
  eexists b, _, t1. split; [reflexivity|]. simpl.
  assert (∀ st, successful (stamped (now s1) st) = successful st
                ∧ failed (stamped (now s1) st) = failed st
                ∧ skipped (stamped (now s1) st) = skipped st) as Hsame.
  { intros st. pose proof (stamped_counters (now s1) st) as Hc.
    unfold counters in Hc. by simplify_eq. }
  destruct b.
  - destruct Hcase as (md & pre & -> & Hmd & Hwork & Hh & Hstart & Hend & Hproc & Hmarks & ->).
    rewrite stamped_start, stamped_handled.
    split; [done|]. split.
    { intros _. unfold stamped. destruct (start_time (stats s1)), Hend as [? Hend];
        rewrite ?Hend; by eexists. }
    exists md, pre. destruct (Hsame (stats s1)) as (-> & -> & ->).
    by split_and!.
  - destruct Hcase as (Hp & Hst & Ht & Hnil).
    rewrite stamped_start, stamped_counters, Hst.
    split; [done|]. split; [apply stamped_end|].
    split_and!; try done.
    + by apply marks_routine.
    + eapply Forall_impl; [exact Ht|]. by intros [].
    + intros Hearly. destruct (Hnil Hearly) as [-> ->]. done.
Qed.

(** X2.  When the reference table could not be loaded or is empty, or when
    the work list is empty or could not be read, [run_automation] returns
    False without a single call on the browser: it leaves no event, the only
    thing that happens to the browser is the teardown of [cleanup], the clock
    does not move, and the counters and the processed set stay as they
    are. *)
Theorem run_automation_nothing_to_do cfg
    (master_data : option (gmap string MasterEntry))
    (daily_input : res (list string)) (s : Bot W)
    (Hnothing : master_data = None ∨ master_data = Some ∅
                ∨ read_daily_input daily_input = []) :
  ∃ s',
    run_automation cfg master_data daily_input s = (Ok false, s', [])
    ∧ page s' = driver_manager_cleanup (page s)
    ∧ now s' = now s
    ∧ counters (stats s') = counters (stats s)
    ∧ processed_dps s' = processed_dps s.
Proof.
  destruct (run_automation_run cfg master_data daily_input s)
    as (b & s' & t & Hrun & _ & _ & Hcase).
  destruct b.
  - destruct Hcase as (md & pre & -> & Hmd & Hwork & _).
    destruct Hnothing as [?|[?|?]]; [done|by simplify_eq|done].
  - destruct Hcase as (Hc & Hp & _ & _ & Hearly).
    destruct (Hearly Hnothing) as (-> & ? & ?). by exists s'.
Qed.

(** X3.  A run that returns True has gone through the whole work list: the
    reference table and the work list are not empty, the three counters
    together have grown by the number of codes of the work list, every code
    of the processed set is a code of the work list that has an entry in the
    reference table, attempts were started for codes of the work list only,
    and when [start_time] is set the last event of the run is the totals line
    of the report, which shows the length of the work list and the counters
    as they are at the end. *)
Theorem run_automation_True cfg (master_data : option (gmap string MasterEntry))
    (daily_input : res (list string)) (s s' : Bot W) (t : list Event)
    (Hrun : run_automation cfg master_data daily_input s = (Ok true, s', t)) :
  let work := read_daily_input daily_input in
  ∃ md pre,
    master_data = Some md ∧ md ≠ ∅ ∧ work ≠ []
    ∧ handled (stats s') = handled (stats s) + N.of_nat (length work)
    ∧ (∀ k, k ∈ processed_dps s' → k ∈ work ∧ is_Some (md !! k))
    ∧ (∀ k, AttemptStarted k ∈ marks t → k ∈ work)
    ∧ t = pre ++ match start_time (stats s) with
                 | Some _ => [EvReport (N.of_nat (length work))
                                       (successful (stats s')) (failed (stats s'))
                                       (skipped (stats s'))]
                 | None => []
                 end.
Proof.
  intros work.
  destruct (run_automation_run cfg master_data daily_input s)
    as (b & s0 & t0 & Hrun0 & _ & _ & Hcase).
  rewrite Hrun in Hrun0. simplify_eq. exact Hcase.
Qed.





End Orchestrator.

(* ===================================================================== *)
(** * Sample runs of the further properties *)
(* ===================================================================== *)

Lemma triple_eta {A B C : Type} (x : A * B * C) (a : A) :
  x.1.1 = a → x = (a, x.1.2, x.2).
Proof. destruct x as [[??]?]. simpl. by intros ->. Qed.

Lemma repeated_items_run_marks :
  marks repeated_items_run.2 = [AttemptStarted "A1"] ++ AttemptReturned "A1" SUCCESS :: [].
Proof. vm_compute. reflexivity. Qed.

Lemma success_is_not_repeated_witness :
  "A1" ∈ processed_dps repeated_items_run.1.2.
Proof.
  destruct (@success_is_not_repeated nat (scripted (obliging "A1" created))
              sample_config sample_master ["A1"; "A1"; "A2"] (new_bot 0%nat 0)
              repeated_items_run.1.2 repeated_items_run.1.1 repeated_items_run.2
              "A1" [AttemptStarted "A1"] [])
    as (_ & Hin & _).
  - exact (triple_eta repeated_items_run _ eq_refl).
  - exact repeated_items_run_marks.
  - exact Hin.
Defined.

Lemma run_automation_nothing_to_do_witness :
  ∃ s', @run_automation nat silent_page sample_config None (Ok ["A1"]) (new_bot 0%nat 0)
        = (Ok false, s', []).
Proof.
  destruct (@run_automation_nothing_to_do nat silent_page sample_config None
              (Ok ["A1"]) (new_bot 0%nat 0)) as (s' & Hrun & _).
  - by left.
  - by exists s'.
Defined.

Lemma obliging_run_True : obliging_run.1.1 = Ok true.
Proof. vm_compute. reflexivity. Qed.

Lemma run_automation_True_witness :
  handled (stats obliging_run.1.2) = 2.
Proof.
  destruct (@run_automation_True nat (scripted (obliging "A1" created)) sample_config
              (Some sample_master) (Ok ["A1"; "A1"; "A2"]) (new_bot 0%nat 0)
              obliging_run.1.2 obliging_run.2)
    as (md & pre & _ & _ & _ & Hh & _).
  - exact (triple_eta obliging_run _ obliging_run_True).
  - exact Hh.
Defined.


(* ===================================================================== *)
(** * Further properties of the per-record attempt *)
(* ===================================================================== *)

(** Runs a computation on a state, one call after the other. *)
Ltac run_step :=
  match goal with
  | |- context [match ?op ?w with (_, _) => _ end] =>
      lazymatch type of w with
      | Bot _ => fail
      | _ => destruct (op w) as [[?|?] ?] eqn:?
      end
  | |- context [match ?x with Some _ => _ | None => _ end] => is_var x; destruct x
  | |- context [if negb ?b then _ else _] => is_var b; destruct b
  | |- context [if ?b then _ else _] => is_var b; destruct b
  | |- context [if negb ?b then _ else _] => destruct b eqn:?
  | |- context [if ?b then _ else _] => destruct b eqn:?
  end.

Ltac run_all := repeat (simpl; run_step).

Section Attempt.
Context {W : Type} `{!Browser W}.

Lemma browsing_run {A} P (m : M W A) s r s' t :
  browsing P m → m s = (r, s', t) →
  interrupted r = false ∧ processed_dps s' = processed_dps s ∧ stats s' = stats s
  ∧ now s ≤ now s' ∧ Forall (λ e, P e = true) t.
Proof. intros Hb Hm. specialize (Hb s). by rewrite Hm in Hb. Qed.

Lemma omap_None {A B} (f : A → option B) (l : list A) :
  Forall (λ x, f x = None) l → omap f l = [].
Proof. induction 1 as [|x l Hx _ IH]; [done|]. simpl. by rewrite Hx. Qed.

Lemma preparing_routine e : preparing e = true → routine e = true.
Proof. unfold preparing. by intros [? _]%andb_true_iff. Qed.

Lemma filtering_preparing e : filtering e = true → preparing e = true.
Proof. unfold filtering. by intros [[? _]%andb_true_iff _]%andb_true_iff. Qed.


Lemma no_data_displayed_filtering selectors :
  browsing (W:=W) filtering (no_data_displayed selectors).
Proof. induction selectors as [|sel rest IH]; simpl; browse. Qed.

Lemma validate_attempt_filtering expected max_attempts attempt :
  browsing (W:=W) filtering (validate_attempt expected max_attempts attempt).
Proof. unfold validate_attempt. browse. all: apply no_data_displayed_filtering. Qed.

Lemma validate_loop_filtering expected max_attempts attempts :
  browsing (W:=W) filtering (validate_loop expected max_attempts attempts).
Proof.
  induction attempts as [|a rest IH]; simpl; browse.
  apply validate_attempt_filtering.
Qed.

(** The validation returns, and its verdict is its last event. *)
Lemma validate_filter_result_run expected max_attempts (s : Bot W) :
  ∃ status s' t,
    validate_filter_result expected max_attempts s
      = (Ok (is_MATCH status, status), s', t ++ [EvValidated expected status])
    ∧ Forall (λ e, filtering e = true) t.
Proof.
  unfold validate_filter_result, bind at 1.
  destruct (validate_loop_run expected max_attempts (range max_attempts) s)
    as (status & s' & t & Hrun & _).
  destruct (browsing_run _ _ _ _ _ _
              (validate_loop_filtering expected max_attempts (range max_attempts)) Hrun)
    as (_ & _ & _ & _ & Ht).
  rewrite Hrun. by exists status, s', t.
Qed.

Lemma filter_loop_preparing turns filter_button kode :
  browsing (W:=W) preparing (filter_loop turns filter_button kode).
Proof.
  assert (∀ n, browsing (W:=W) preparing (validate_filter_result kode n)) as Hv.
  { intros n. unfold validate_filter_result. browse.
    eapply browsing_weaken; [apply filtering_preparing|apply validate_loop_filtering]. }
  induction turns as [|turns IH]; simpl; browse; apply Hv.
Qed.

Lemma filter_loop_run turns filter_button kode :
  ∀ (s s' : Bot W) t,
    filter_loop turns filter_button kode s = (Ok (Some true), s', t) →
    ∃ pre, t = pre ++ [EvValidated kode MATCH]
           ∧ Forall (λ e, filtering e = true) pre.
Proof.
  induction turns as [|turns IH]; intros s s' t Hrun; [done|].
  simpl in Hrun. unfold bind at 1, safe_click, perform in Hrun.
  destruct (helper_safe_click filter_button "Filter button" true (page s))
    as [[[|]|cls] w1]; simpl in Hrun; [| |done].
  - unfold bind at 1, wait_for_page_load, perform in Hrun. simpl in Hrun.
    destruct (helper_wait_for_page_load None w1) as [[loaded|cls] w2];
      simpl in Hrun; [|done].
    unfold bind at 1 in Hrun.
    match type of Hrun with
    | context [validate_filter_result kode 3 ?s2] =>
        destruct (validate_filter_result_run kode 3 s2)
          as (status & s3 & t3 & Hv & Ht3)
    end.
    rewrite Hv in Hrun. clear Hv. simpl in Hrun.
    destruct status; simpl in Hrun.
    + injection Hrun as <- <-. eexists (_ :: _ :: t3). rewrite app_nil_r.
      split; [reflexivity|]. by repeat (constructor; [done|]).
    + unfold bind at 1 in Hrun. simpl in Hrun.
      destruct (filter_loop turns filter_button kode _) as [[r4 s4] t4] eqn:Hloop.
      destruct r4 as [[[|]|]|]; try done. injection Hrun as <- <-.
      destruct (IH _ _ _ Hloop) as (pre & -> & Hpre).
      eexists (_ :: _ :: (t3 ++ [_]) ++ _ :: pre).
      split; [simpl; rewrite <- !app_assoc; reflexivity|].
      repeat (constructor; [done|]).
      apply Forall_app_2; [apply Forall_app_2; [done|by repeat constructor]|].
      by constructor.
    + done.
    + unfold bind at 1 in Hrun. simpl in Hrun.
      destruct (filter_loop turns filter_button kode _) as [[r4 s4] t4] eqn:Hloop.
      destruct r4 as [[[|]|]|]; try done. injection Hrun as <- <-.
      destruct (IH _ _ _ Hloop) as (pre & -> & Hpre).
      eexists (_ :: _ :: (t3 ++ [_]) ++ _ :: pre).
      split; [simpl; rewrite <- !app_assoc; reflexivity|].
      repeat (constructor; [done|]).
      apply Forall_app_2; [apply Forall_app_2; [done|by repeat constructor]|].
      by constructor.
  - destruct (filter_loop turns filter_button kode _) as [[r4 s4] t4] eqn:Hloop.
    destruct r4 as [[[|]|]|]; try done. injection Hrun as <- <-.
    destruct (IH _ _ _ Hloop) as (pre & -> & Hpre).
    eexists (_ :: pre). split; [reflexivity|]. by constructor.
Qed.

(** The steps of an attempt.  Either they end on FAIL or on an exception
    before any control of the creation step is clicked, or the gate was
    passed: the three selections answered True, in the order city, RK, DP
    code, the filter button was located, a validation ended on MATCH, and
    the creation step follows. *)
Lemma process_ticket_creation_steps_run city rk kode (s : Bot W) :
  ∃ r s' t,
    process_ticket_creation_steps city rk kode s = (r, s', t)
    ∧ ((caught r = FAIL ∧ Forall (λ e, preparing e = true) t)
       ∨ ∃ gate s1 t1,
           t = gate ++ EvValidated kode MATCH :: t1
           ∧ now s ≤ now s1
           ∧ Forall (λ e, preparing e = true ∧ gate_failed e = false) gate
           ∧ selections gate
             = [(SELECTORS "city_input", city, Ok (ABool true));
                (SELECTORS "rk_input", rk, Ok (ABool true));
                (SELECTORS "dp_input", kode, Ok (ABool true))]
           ∧ create_ticket s1 = (r, s', t1)).
Proof.
  unfold process_ticket_creation_steps. generalize 3%nat as turns. intros turns.
  unfold bind, handle_vue_select_dropdown, wait_for_element, perform, time_sleep.
  run_all.
  2-9: eexists _, _, _; (split; [reflexivity|]); left; (split; [done|]);
       by repeat (constructor; [done|]).
  match goal with
  | |- context [filter_loop turns ?e kode ?s0] =>
      pose proof (λ r s' t, browsing_run _ _ s0 r s' t
                             (filter_loop_preparing turns e kode)) as Hb;
      pose proof (filter_loop_run turns e kode s0) as Hpass;
      destruct (filter_loop turns e kode s0) as [[r0 s1] t1]
  end.
  destruct (Hb _ _ _ eq_refl) as (Hint & _ & _ & Hnow & Ht1). clear Hb.
  simpl in Hnow.
  destruct r0 as [[[|]|]|ex]; simpl.
  2-4: eexists _, _, _; (split; [reflexivity|]); left; (split; [done|]);
       rewrite ?app_nil_r; by repeat (constructor; [done|]).
  destruct (Hpass _ _ eq_refl) as (pre & -> & Hpre).
  destruct (create_ticket s1) as [[r s'] t2] eqn:Hcreate.
  eexists _, _, _. split; [reflexivity|]. right.
  eexists (_ :: _ :: _ :: _ :: _ :: _ :: _ :: pre), s1, t2.
  split; [simpl; by rewrite <- !app_assoc|]. split_and!; [lia| |..|done].
  - repeat (constructor; [done|]).
    eapply Forall_impl; [exact Hpre|]. intros e0 He0. simpl.
    split; [by apply filtering_preparing|].
    unfold filtering in He0. apply andb_true_iff in He0 as [He0 _].
    apply andb_true_iff in He0 as [_ He0]. by apply negb_true_iff.
  - unfold selections. simpl. do 3 f_equal. apply (omap_None selection_of pre).
    eapply Forall_impl; [exact Hpre|]. intros e0 He0. simpl.
    unfold filtering in He0. apply andb_true_iff in He0 as [_ He0].
    by destruct (selection_of e0).
Qed.

Lemma poll_loop_polling fuel deadline :
  browsing (W:=W) polling_event (poll_loop fuel deadline).
Proof. induction fuel as [|fuel IH]; simpl; browse. Qed.

(** The status check, by what its polls answered. *)
Lemma check_ticket_creation_status_run timeout (s : Bot W) :
  ∃ r s' t,
    check_ticket_creation_status timeout s = (r, s', t)
    ∧ Forall (λ e, polling_event e = true) t
    ∧ match r with
      | Ok outcome =>
          polled outcome (polls t)
          ∧ (outcome = TIMEOUT → now s + seconds timeout ≤ now s')
      | Raise _ => True
      end.
Proof.
  destruct (poll_loop_run (poll_fuel timeout) (now s + seconds timeout) s)
    as (r & s' & t & empties & last & Hloop & Hpolls & Hempty & Hend & _).
  { unfold poll_fuel, seconds. lia. }
  pose proof (browsing_run _ _ _ _ _ _ (poll_loop_polling _ _) Hloop)
    as (_ & _ & _ & _ & Ht).
  exists r, s', t. split_and!.
  - unfold check_ticket_creation_status, bind at 1, time_time.
    unfold bind. rewrite Hloop. destruct r; simpl; by rewrite ?app_nil_r.
  - done.
  - rewrite Hpolls.
    inversion Hend as [Hdl|at_ms d Hat Htr|at_ms v Hat Htr Hnd|at_ms e Hat]; subst;
      try done.
    + rewrite app_nil_r. split; [|done]. simpl.
      eapply Forall_impl; [exact Hempty|]. by intros p [_ ?].
    + destruct (eq_200 (dict_get d "code")) eqn:Hcode; (split; [|done]); simpl;
        exists at_ms, d; by rewrite last_snoc.
Qed.

(** The creation step.  Either it ends on FAIL or on an exception without
    a single poll, or its three controls were located and clicked with
    success, the slot was emptied before the last click, and the status
    check follows. *)
Lemma create_ticket_run (s : Bot W) :
  ∃ r s' t,
    create_ticket s = (r, s', t)
    ∧ ((caught r = FAIL ∧ polls t = [])
       ∨ ∃ creation s1 polling,
           t = creation ++ polling
           ∧ creation_steps creation
           ∧ now s ≤ now s1
           ∧ check_ticket_creation_status 120 s1 = (r, s', polling)).
Proof.
  unfold create_ticket.
  generalize (check_ticket_creation_status (W:=W) 120) as check. intros check.
  unfold bind, wait_for_element, safe_click, wait_for_page_load, execute_script,
    perform, time_sleep.
  run_all; simpl.
  2-15: eexists _, _, _; (split; [reflexivity|]); by left.
  match goal with
  | |- context [check ?s1] => destruct (check s1) as [[r s'] polling] eqn:Hcheck
  end.
  eexists _, _, _. split; [reflexivity|]. right.
  eexists [_; _; _; _; _; _; _; _; _; _], _, polling.
  split_and!; [reflexivity|constructor| |exact Hcheck]. simpl. lia.
Qed.



(** X9.  An attempt returns SUCCESS or TIMEOUT only out of the status
    check at its end.  Its events are then: the gate, passed as above; the
    verdict MATCH; the creation step, in which the three controls were
    located and clicked with success, and the slot was emptied after the
    second click and before the confirmation was clicked; then nothing but
    polls of the slot and sleeps of half a second.  On SUCCESS the last
    poll answered an object whose [code] is 200; on TIMEOUT every poll
    found the slot empty and the attempt lasted 120 seconds at least. *)
Theorem outcome_comes_from_polling city rk kode (s s' : Bot W) outcome t
    (Hrun : process_ticket_creation city rk kode s = (Ok outcome, s', t))
    (Hout : outcome ≠ FAIL) :
  ∃ gate creation polling,
    t = EvAttempt city rk kode
          :: gate ++ EvValidated kode MATCH
          :: creation ++ polling ++ [EvOutcome kode outcome]
    ∧ Forall (λ e, preparing e = true ∧ gate_failed e = false) gate
    ∧ selections gate
      = [(SELECTORS "city_input", city, Ok (ABool true));
         (SELECTORS "rk_input", rk, Ok (ABool true));
         (SELECTORS "dp_input", kode, Ok (ABool true))]
    ∧ creation_steps creation
    ∧ Forall (λ e, polling_event e = true) polling
    ∧ polled outcome (polls polling)
    ∧ (outcome = TIMEOUT → now s + seconds 120 ≤ now s').
Proof.
  destruct (process_ticket_creation_run city rk kode s)
    as (r0 & s0 & t0 & Hsteps & Hwhole & _).
  rewrite Hrun in Hwhole. injection Hwhole as -> -> ->.
  destruct (process_ticket_creation_steps_run city rk kode s)
    as (r1 & s1 & t1 & Hsteps1 & Hcase).
  rewrite Hsteps in Hsteps1. injection Hsteps1 as <- <- <-.
  destruct Hcase as [[Hfail _]|(gate & s2 & t2 & -> & Hnow2 & Hgate & Hsel & Hcreate)];
    [done|].
  destruct (create_ticket_run s2) as (r3 & s3 & t3 & Hcreate3 & Hcase).
  rewrite Hcreate in Hcreate3. injection Hcreate3 as <- <- <-.
  destruct Hcase as [[Hfail _]|(creation & s4 & polling & -> & Hsteps4 & Hnow4 & Hcheck)];
    [done|].
  destruct (check_ticket_creation_status_run 120 s4)
    as (r5 & s5 & t5 & Hcheck5 & Hpolling & Hpolled).
  rewrite Hcheck in Hcheck5. injection Hcheck5 as <- <- <-.
  destruct r0 as [outcome|ex]; [|done]. simpl in *.
  destruct Hpolled as [Hpolled Hlate].
  exists gate, creation, polling. split_and!; try done.
  - f_equal. rewrite <- !app_assoc. simpl. by rewrite <- !app_assoc.
  - intros Hout'. specialize (Hlate Hout'). lia.
Qed.
End Attempt.

(* ===================================================================== *)
(** * The login, the navigation and the recovery *)
(* ===================================================================== *)

Section Session.
Context {W : Type} `{!Browser W}.





End Session.

(* ===================================================================== *)
(** * The number of attempts *)
(* ===================================================================== *)

Section Bounds.
Context {W : Type} `{!Browser W}.





(** X14.  With MAX_RETRIES at zero or below, no attempt is made: an item
    that is in the reference table and not yet processed is counted as
    failed after the one-second pause of the loop, without a single call on
    the browser. *)
Theorem no_retries_no_attempt cfg (master_data : gmap string MasterEntry) kode data
    (s : Bot W)
    (Hmax : (MAX_RETRIES cfg ≤ 0)%Z)
    (Hnew : kode ∉ processed_dps s)
    (Hdata : master_data !! kode = Some data) :
  ∃ s',
    process_item cfg master_data kode s
      = (Ok false, s', [EvCall (Sleep 1000) (now s) (Ok AUnit)])
    ∧ stats s' = bump Failed (stats s)
    ∧ processed_dps s' = processed_dps s.
Proof.
  destruct (process_item_run cfg master_data kode s) as (s' & t & Hrun & Hcase).
  rewrite bool_decide_eq_false_2, Hdata in Hcase by done.
  destruct Hcase as (final & s1 & t1 & Hloop & Hmarks & -> & Hst & Hp).
  assert (range (MAX_RETRIES cfg) = []) as Hrange.
  { unfold range. by replace (Z.to_nat (MAX_RETRIES cfg)) with 0%nat by lia. }
  rewrite Hrange in Hloop, Hmarks. simpl in Hloop. injection Hloop as <- <- <-.
  exists s'. by split_and!.
Qed.
End Bounds.

(* ===================================================================== *)
(** * Sample runs of the properties of the attempt *)
(* ===================================================================== *)

Lemma obliging_attempt_SUCCESS : obliging_attempt.1.1 = Ok SUCCESS.
Proof. vm_compute. reflexivity. Qed.



Lemma outcome_comes_from_polling_witness :
  ∃ gate creation polling,
    obliging_attempt.2
    = EvAttempt "CityX" "RegionY" "A1"
        :: gate ++ EvValidated "A1" MATCH
        :: creation ++ polling ++ [EvOutcome "A1" SUCCESS]
    ∧ creation_steps creation
    ∧ polled SUCCESS (polls polling).
Proof.
  destruct (@outcome_comes_from_polling nat (scripted (obliging "A1" created))
              "CityX" "RegionY" "A1" (new_bot 0%nat 0)
              obliging_attempt.1.2 SUCCESS obliging_attempt.2)
    as (gate & creation & polling & Ht & _ & _ & Hcreation & _ & Hpolled & _).
  - generalize obliging_attempt_SUCCESS. unfold obliging_attempt.
    destruct (process_ticket_creation _ _ _ _) as [[r s'] t].
    simpl. intros ->. reflexivity.
  - discriminate.
  - exists gate, creation, polling. split; [exact Ht|]. split; assumption.
Defined.

Lemma no_retries_no_attempt_witness :
  ∃ s', @process_item nat silent_page no_retries_config sample_master "A1"
          (new_bot 0%nat 0)
        = (Ok false, s', [EvCall (Sleep 1000) 0 (Ok AUnit)])
        ∧ failed (stats s') = 1.
Proof.
  destruct (@no_retries_no_attempt nat silent_page no_retries_config sample_master "A1"
              {| City := "CityX"; RK := "RegionY"; row_number := 2 |}
              (new_bot 0%nat 0))
    as (s' & Hrun & Hst & _).
  - simpl. lia.
  - apply not_elem_of_empty.
  - reflexivity.
  - exists s'. split; [exact Hrun|]. rewrite Hst. reflexivity.
Defined.

(* ===================================================================== *)
(** * The reference table *)
(* ===================================================================== *)

Lemma rev_reverse_eq {A} (l : list A) : rev l = reverse l.
Proof. unfold reverse. by rewrite rev_alt. Qed.

Lemma DictReader_row_names fieldnames :
  ∀ row, (DictReader_row fieldnames row).*1 = fieldnames.
Proof. induction fieldnames as [|name rest IH]; intros row; simpl; by rewrite ?IH. Qed.

Lemma first_binding_None {A} (d : list (string * A)) key :
  key ∉ d.*1 → first_binding d key = None.
Proof.
  induction d as [|[k v] d IH]; [done|]. simpl. intros Hkey.
  apply not_elem_of_cons in Hkey as [Hne Hkey].
  destruct (String.eqb_spec k key) as [->|_]; [done|]. by apply IH.
Qed.

(** A column that the header does not name, letter for letter, reads as
    empty in every record. *)
Lemma stripped_field_absent fieldnames row key :
  key ∉ fieldnames → stripped_field (DictReader_row fieldnames row) key = "".
Proof.
  intros Hkey. unfold stripped_field, row_get. rewrite first_binding_None; [done|].
  rewrite rev_reverse_eq, fmap_reverse, DictReader_row_names. by rewrite elem_of_reverse.
Qed.

Lemma entry_of_shift fieldnames n :
  ∀ i row, entry_of fieldnames (n + S i) row = entry_of fieldnames (S n + i) row.
Proof. intros i row. by replace (n + S i)%nat with (S n + i)%nat by lia. Qed.

(** The loop over the records, in the words of a reader: the complete rows
    are written to the table in their order, a later row over an earlier
    one for the same code. *)
Lemma load_rows_spec fieldnames rows :
  ∀ (n : nat) (acc : gmap string MasterEntry),
    load_rows fieldnames rows (2 + N.of_nat n) acc
    = list_to_map
        (rev (omap id (imap (λ i, entry_of fieldnames (n + i))
                            (List.filter nonblank rows))))
      ∪ acc.
Proof.
  induction rows as [|row rest IH]; intros n acc.
  { simpl. by rewrite (left_id_L ∅ (∪)). }
  destruct row as [|field fields]; [apply IH|].
  change (List.filter nonblank ((field :: fields) :: rest))
    with ((field :: fields) :: List.filter nonblank rest).
  rewrite imap_cons.
  rewrite (imap_ext _ (λ i, entry_of fieldnames (S n + i)) (List.filter nonblank rest))
    by (intros; apply entry_of_shift).
  change (load_rows fieldnames ((field :: fields) :: rest) (2 + N.of_nat n) acc)
    with (let d := DictReader_row fieldnames (field :: fields) in
          let kode_dp := stripped_field d "Kode_DP" in
          let city := stripped_field d "City" in
          let rk := stripped_field d "RK" in
          if str_empty kode_dp || str_empty city || str_empty rk
          then load_rows fieldnames rest (2 + N.of_nat n + 1) acc
          else load_rows fieldnames rest (2 + N.of_nat n + 1)
                 (<[kode_dp := {| City := city; RK := rk;
                                  row_number := 2 + N.of_nat n |}]> acc)).
  cbv zeta. unfold entry_of at 1. cbv zeta.
  replace (2 + N.of_nat n + 1) with (2 + N.of_nat (S n)) by lia.
  replace (n + 0)%nat with n by lia.
  destruct (str_empty _ || str_empty _ || str_empty _).
  - simpl. apply IH.
  - rewrite IH. simpl. rewrite list_to_map_app. simpl.
    rewrite insert_empty, <- (assoc_L (∪)). by rewrite <- insert_union_singleton_l.
Qed.

Lemma load_rows_entries fieldnames rows :
  load_rows fieldnames rows 2 ∅ = list_to_map (rev (master_entries fieldnames rows)).
Proof.
  change 2 with (2 + N.of_nat 0) at 1. rewrite load_rows_spec.
  by rewrite (right_id_L ∅ (∪)).
Qed.

Lemma list_to_map_nil_inv (l : list (string * MasterEntry)) :
  (list_to_map l : gmap string MasterEntry) = ∅ → l = [].
Proof.
  destruct l as [|[k e] l]; [done|]. simpl. intros Hempty.
  by apply insert_non_empty in Hempty.
Qed.

(** Looking a code up in the table made of a list of rows finds the first
    row of the list for this code. *)
Lemma list_to_map_first (l : list (string * MasterEntry)) k e :
  (list_to_map l : gmap string MasterEntry) !! k = Some e
  ↔ ∃ pre post, l = pre ++ (k, e) :: post ∧ k ∉ pre.*1.
Proof.
  induction l as [|[k' e'] l IH]; simpl.
  { rewrite lookup_empty. split; [done|]. intros (pre & post & Heq & _). by destruct pre. }
  destruct (decide (k' = k)) as [->|Hne].
  - rewrite lookup_insert_eq. split.
    + intros [= ->]. exists [], l. split; [done|]. apply not_elem_of_nil.
    + intros (pre & post & Heq & Hpre). destruct pre as [|[k0 e0] pre].
      * by injection Heq as -> _.
      * injection Heq as -> -> _. exfalso. apply Hpre. simpl. apply list_elem_of_here.
  - rewrite lookup_insert_ne by done. rewrite IH. split.
    + intros (pre & post & -> & Hpre). exists ((k', e') :: pre), post.
      split; [done|]. simpl. by apply not_elem_of_cons.
    + intros (pre & post & Heq & Hpre). destruct pre as [|[k0 e0] pre].
      * by injection Heq as -> _.
      * injection Heq as -> -> ->. exists pre, post. split; [done|].
        simpl in Hpre. by apply not_elem_of_cons in Hpre as [_ ?].
Qed.

(** In the table made of the rows in reverse, the last row for a code is
    the one that is found. *)
Lemma list_to_map_last (l : list (string * MasterEntry)) k e :
  (list_to_map (rev l) : gmap string MasterEntry) !! k = Some e
  ↔ ∃ pre post, l = pre ++ (k, e) :: post ∧ k ∉ post.*1.
Proof.
  rewrite list_to_map_first. split.
  - intros (pre & post & Heq & Hpre). exists (rev post), (rev pre).
    apply (f_equal (@rev _)) in Heq. rewrite rev_involutive in Heq.
    rewrite Heq, rev_app_distr. simpl. rewrite <- app_assoc. split; [done|].
    by rewrite rev_reverse_eq, fmap_reverse, elem_of_reverse.
  - intros (pre & post & -> & Hpost). exists (rev post), (rev pre).
    rewrite rev_app_distr. simpl. rewrite <- app_assoc. split; [done|].
    by rewrite rev_reverse_eq, fmap_reverse, elem_of_reverse.
Qed.

Lemma master_entries_elem fieldnames rows k e :
  (k, e) ∈ master_entries fieldnames rows →
  ∃ i row, List.filter nonblank rows !! i = Some row
           ∧ entry_of fieldnames i row = Some (k, e).
Proof.
  unfold master_entries. intros Hin.
  apply list_elem_of_omap in Hin as (o & Ho & Hsome). simpl in Hsome. subst o.
  apply elem_of_lookup_imap in Ho as (i & row & Hentry & Hrow). eauto.
Qed.

(** A complete row, field by field. *)
Lemma entry_of_Some fieldnames i row k e :
  entry_of fieldnames i row = Some (k, e) →
  k = stripped_field (DictReader_row fieldnames row) "Kode_DP"
  ∧ City e = stripped_field (DictReader_row fieldnames row) "City"
  ∧ RK e = stripped_field (DictReader_row fieldnames row) "RK"
  ∧ row_number e = 2 + N.of_nat i
  ∧ k ≠ "" ∧ City e ≠ "" ∧ RK e ≠ ""
  ∧ Forall (λ f, f ∈ fieldnames) required_fields.
Proof.
  unfold entry_of. cbv zeta.
  destruct (str_empty (stripped_field _ "Kode_DP")) eqn:Hk; [done|].
  destruct (str_empty (stripped_field _ "City")) eqn:Hc; [done|].
  destruct (str_empty (stripped_field _ "RK")) eqn:Hr; [done|].
  simpl. intros [= <- <-]. simpl.
  assert (∀ key, str_empty (stripped_field (DictReader_row fieldnames row) key) = false →
                 stripped_field (DictReader_row fieldnames row) key ≠ ""
                 ∧ key ∈ fieldnames) as Hfield.
  { intros key Hkey. split; [by intros Heq; rewrite Heq in Hkey|].
    destruct (decide (key ∈ fieldnames)) as [|Hnot]; [done|].
    by rewrite (stripped_field_absent _ _ _ Hnot) in Hkey. }
  destruct (Hfield _ Hk), (Hfield _ Hc), (Hfield _ Hr).
  split_and!; try done. by repeat constructor.
Qed.

Lemma load_records_cases (reading : CsvReading) :
  match load_records reading with
  | Some master_data =>
      reader_raises reading = None
      ∧ ∃ fieldnames rows,
          records reading = fieldnames :: rows
          ∧ Forall (λ f, f ∈ fieldnames) required_fields
          ∧ master_entries fieldnames rows ≠ []
          ∧ master_data = list_to_map (rev (master_entries fieldnames rows))
          ∧ ∀ k e, master_data !! k = Some e
                   ↔ ∃ pre post, master_entries fieldnames rows = pre ++ (k, e) :: post
                                 ∧ k ∉ post.*1
  | None =>
      is_Some (reader_raises reading)
      ∨ match records reading with
        | [] => True
        | fieldnames :: rows =>
            ¬ Forall (λ f, f ∈ fieldnames) required_fields
            ∨ master_entries fieldnames rows = []
        end
  end.
Proof.
  unfold load_records. destruct (records reading) as [|fieldnames rows]; [by right|].
  assert (¬ Forall (λ f, f ∈ fieldnames) required_fields
          ∨ master_entries fieldnames rows = [] →
          is_Some (reader_raises reading)
          ∨ (¬ Forall (λ f, f ∈ fieldnames) required_fields
             ∨ master_entries fieldnames rows = [])) as Hright by (by right).
  destruct fieldnames as [|name names].
  { apply Hright. left. intros Hall. inversion Hall as [|?? Hin _]. by inversion Hin. }
  generalize dependent (name :: names). clear name names. intros fieldnames Hright.
  cbv zeta.
  destruct (List.filter _ required_fields) as [|missing ?] eqn:Hmissing.
  2:{ apply Hright. left. intros Hall.
      assert (missing ∈ List.filter
                (λ field, negb (bool_decide (field ∈ map strip fieldnames)))
                required_fields) as Hin by (rewrite Hmissing; apply list_elem_of_here).
      apply list_elem_of_In, filter_In in Hin as [Hreq Hnot].
      apply list_elem_of_In in Hreq.
      apply negb_true_iff, bool_decide_eq_false in Hnot. apply Hnot.
      rewrite Forall_forall in Hall. specialize (Hall _ Hreq).
      apply (list_elem_of_fmap_2 strip) in Hall.
      unfold required_fields in Hreq.
      repeat (apply elem_of_cons in Hreq as [->|Hreq]; [exact Hall|]).
      by apply elem_of_nil in Hreq. }
  rewrite load_rows_entries.
  destruct (reader_raises reading) as [cls|]; [left; by eexists|].
  case_bool_decide as Hempty.
  { apply Hright. right. apply list_to_map_nil_inv in Hempty.
    by rewrite <- (rev_involutive (master_entries fieldnames rows)), Hempty. }
  split; [done|]. exists fieldnames, rows.
  assert (master_entries fieldnames rows ≠ []) as Hsome.
  { intros Hnil. by rewrite Hnil in Hempty. }
  split_and!; try done.
  - destruct (master_entries fieldnames rows) as [|[k e] l] eqn:Hentries; [done|].
    assert ((k, e) ∈ master_entries fieldnames rows) as Hin
      by (rewrite Hentries; apply list_elem_of_here).
    apply master_entries_elem in Hin as (i & row & _ & Hentry).
    by apply entry_of_Some in Hentry as (_ & _ & _ & _ & _ & _ & _ & ?).
  - intros k e. apply list_to_map_last.
Qed.

Lemma load_records_Some reading master_data :
  load_records reading = Some master_data →
  reader_raises reading = None
  ∧ ∃ fieldnames rows,
      records reading = fieldnames :: rows
      ∧ Forall (λ f, f ∈ fieldnames) required_fields
      ∧ master_entries fieldnames rows ≠ []
      ∧ master_data = list_to_map (rev (master_entries fieldnames rows))
      ∧ ∀ k e, master_data !! k = Some e
               ↔ ∃ pre post, master_entries fieldnames rows = pre ++ (k, e) :: post
                             ∧ k ∉ post.*1.
Proof. intros Hload. pose proof (load_records_cases reading) as H. by rewrite Hload in H. Qed.

(** X15.  What [load_master_data] makes of the records of the reference
    file.  It gives a table exactly when the reader does not raise, the
    header names the three columns Kode_DP, City and RK letter for letter,
    and one row at least is complete (its three fields are not empty once
    stripped).  The table then holds, for each code, the last complete row
    of this code: a later row overrides an earlier one. *)
Theorem load_records_table (reading : CsvReading) :
  match load_records reading with
  | Some master_data =>
      reader_raises reading = None
      ∧ ∃ fieldnames rows,
          records reading = fieldnames :: rows
          ∧ Forall (λ f, f ∈ fieldnames) required_fields
          ∧ master_entries fieldnames rows ≠ []
          ∧ master_data = list_to_map (rev (master_entries fieldnames rows))
          ∧ ∀ k e, master_data !! k = Some e
                   ↔ ∃ pre post, master_entries fieldnames rows = pre ++ (k, e) :: post
                                 ∧ k ∉ post.*1
  | None =>
      is_Some (reader_raises reading)
      ∨ match records reading with
        | [] => True
        | fieldnames :: rows =>
            ¬ Forall (λ f, f ∈ fieldnames) required_fields
            ∨ master_entries fieldnames rows = []
        end
  end.
Proof.
  destruct (load_records reading) as [master_data|] eqn:Hload.
  - destruct (load_records_Some _ _ Hload) as (Hraises & fieldnames & rows & Hrest).
    split; [exact Hraises|]. by exists fieldnames, rows.
  - pose proof (load_records_cases reading) as Hcases.
    rewrite Hload in Hcases. exact Hcases.
Qed.

(** X16.  Every entry of the table comes from a record of the file that
    is not empty: its code, its city and its RK are the fields of this
    record under the three names, stripped, and none of them is empty.  Its
    [row_number] is 2 plus the rank of the record among the records after
    the header that are not empty (so it is the line of the record in the
    file only as long as no empty line comes before it). *)
Theorem table_rows_are_complete reading master_data k e
    (Hload : load_records reading = Some master_data)
    (Hentry : master_data !! k = Some e) :
  k ≠ "" ∧ City e ≠ "" ∧ RK e ≠ ""
  ∧ ∃ fieldnames rows i row,
      records reading = fieldnames :: rows
      ∧ List.filter nonblank rows !! i = Some row
      ∧ row_number e = 2 + N.of_nat i
      ∧ k = stripped_field (DictReader_row fieldnames row) "Kode_DP"
      ∧ City e = stripped_field (DictReader_row fieldnames row) "City"
      ∧ RK e = stripped_field (DictReader_row fieldnames row) "RK".
Proof.
  destruct (load_records_Some _ _ Hload)
    as (_ & fieldnames & rows & Hrecords & _ & _ & _ & Hlast).
  destruct (proj1 (Hlast k e) Hentry) as (pre & post & Hentries & _).
  assert ((k, e) ∈ master_entries fieldnames rows) as Hin.
  { rewrite Hentries. apply elem_of_app. right. apply list_elem_of_here. }
  apply master_entries_elem in Hin as (i & row & Hrow & Hsome).
  apply entry_of_Some in Hsome as (Hk & Hc & Hr & Hn & ? & ? & ? & _).
  split_and!; try done. by exists fieldnames, rows, i, row.
Qed.

(** X17.  The header is checked with its names stripped, but the rows are
    read under the names as they are written.  So a file whose header
    lacks one of Kode_DP, City and RK letter for letter gives no table,
    also when the name is there with blanks around it and the check of
    the columns passes. *)
Theorem column_names_are_exact fieldnames rows raises f
    (Hrequired : f ∈ required_fields)
    (Habsent : f ∉ fieldnames) :
  load_records {| records := fieldnames :: rows; reader_raises := raises |} = None.
Proof.
  destruct (load_records _) as [master_data|] eqn:Hload; [|done].
  destruct (load_records_Some _ _ Hload)
    as (_ & fieldnames' & rows' & Hrecords & Hall & _).
  simpl in Hrecords. injection Hrecords as <- <-.
  rewrite Forall_forall in Hall. by destruct (Habsent (Hall _ Hrequired)).
Qed.

Lemma load_master_data_Some MASTER_DATA_FILE fs open_csv master_data :
  load_master_data MASTER_DATA_FILE fs open_csv None = Some master_data →
  ∃ reading, fs MASTER_DATA_FILE = RegularFile
             ∧ open_csv MASTER_DATA_FILE = Reply reading
             ∧ load_records reading = Some master_data.
Proof.
  unfold load_master_data, validate_file_exists.
  destruct (str_empty MASTER_DATA_FILE); [done|].
  destruct (fs MASTER_DATA_FILE); try done.
  destruct (open_csv MASTER_DATA_FILE) as [reading|]; [|done]. by exists reading.
Qed.

(* ===================================================================== *)
(** * The table and the attempts of a run *)
(* ===================================================================== *)

Section Table.
Context {W : Type} `{!Browser W}.

Lemma emitting_browsing {A} P (m : M W A) : browsing P m → emitting P m.
Proof. intros Hb s. specialize (Hb s). by destruct (m s) as [[??]?], Hb as (_ & _ & _ & _ & ?). Qed.

Lemma emitting_ret {A} P (a : A) : emitting (W:=W) P (ret a).
Proof. intros s. constructor. Qed.

Lemma emitting_bind {A B} P (m : M W A) (k : A → M W B) :
  emitting P m → (∀ a, emitting P (k a)) → emitting P (bind m k).
Proof.
  intros Hm Hk s. unfold bind. specialize (Hm s).
  destruct (m s) as [[[a|e] s1] t1]; [|exact Hm].
  specialize (Hk a s1). destruct (k a s1) as [[r s2] t2]. by apply Forall_app_2.
Qed.

Lemma emitting_try_except_Exception {A} P (body handler : M W A) :
  emitting P body → emitting P handler → emitting P (try_except_Exception body handler).
Proof.
  intros Hb Hh s. unfold try_except_Exception. specialize (Hb s).
  destruct (body s) as [[[a|[|cls]] s1] t1]; try exact Hb.
  specialize (Hh s1). destruct (handler s1) as [[r s2] t2]. by apply Forall_app_2.
Qed.

Lemma emitting_try_finally {A} P (body : M W A) final :
  emitting P body → emitting P final → emitting P (try_finally body final).
Proof.
  intros Hb Hf s. unfold try_finally. specialize (Hb s).
  destruct (body s) as [[r s1] t1]. specialize (Hf s1).
  destruct (final s1) as [[[[]|e] s2] t2]; by apply Forall_app_2.
Qed.

Lemma from_table_unmarked master_data e :
  unmarked e = true → from_table master_data e = true.
Proof. by destruct e. Qed.

Lemma from_table_routine master_data e :
  routine e = true → from_table master_data e = true.
Proof. intros He. by apply from_table_unmarked, routine_unmarked. Qed.

(** The attempts of one item are made with the city and the RK of the
    table. *)
Lemma attempt_loop_from_table cfg (master_data : gmap string MasterEntry) kode data
    attempts :
  master_data !! kode = Some data →
  browsing (W:=W) (from_table master_data)
           (attempt_loop cfg (City data) (RK data) kode attempts).
Proof.
  intros Hdata.
  assert (from_table master_data (EvAttempt (City data) (RK data) kode) = true) as Hev.
  { simpl. by rewrite Hdata, !String.eqb_refl. }
  assert (browsing (W:=W) (from_table master_data)
            (process_ticket_creation (City data) (RK data) kode)) as Hattempt.
  { unfold process_ticket_creation. browse.
    - by apply browsing_emit.
    - eapply browsing_weaken; [apply from_table_unmarked|].
      apply process_ticket_creation_steps_browsing. }
  assert (browsing (W:=W) (from_table master_data)
            (handle_page_refresh_and_navigation cfg)) as Hrecovery.
  { unfold handle_page_refresh_and_navigation. browse.
    eapply browsing_weaken; [apply from_table_routine|].
    apply navigate_to_dp_menu_browsing. }
  induction attempts as [|attempt rest IH]; simpl; browse.
  unfold attempt_body. browse.
Qed.

Lemma process_item_from_table cfg (master_data : gmap string MasterEntry) kode :
  emitting (W:=W) (from_table master_data) (process_item cfg master_data kode).
Proof.
  intros s.
  destruct (process_item_run cfg master_data kode s) as (s' & t & Hrun & Hcase).
  rewrite Hrun. simpl. case_bool_decide.
  { destruct Hcase as (-> & _). constructor. }
  destruct (master_data !! kode) as [data|] eqn:Hdata.
  2:{ destruct Hcase as (-> & _). constructor. }
  destruct Hcase as (final & s1 & t1 & Hloop & _ & -> & _).
  apply Forall_app_2; [|by repeat constructor].
  by destruct (browsing_run _ _ _ _ _ _
                 (attempt_loop_from_table cfg master_data kode data _ Hdata) Hloop)
    as (_ & _ & _ & _ & ?).
Qed.

Lemma process_items_from_table cfg (master_data : gmap string MasterEntry) items :
  emitting (W:=W) (from_table master_data) (process_items cfg master_data items).
Proof.
  induction items as [|kode rest IH]; simpl; [apply emitting_ret|].
  apply emitting_bind; [apply process_item_from_table|].
  intros [|]; [apply emitting_ret|apply IH].
Qed.

Lemma run_automation_from_table cfg (master_data : gmap string MasterEntry) daily_input :
  emitting (W:=W) (from_table master_data)
           (run_automation cfg (Some master_data) daily_input).
Proof.
  unfold run_automation. apply emitting_try_finally.
  2:{ intros s. rewrite cleanup_run. constructor. }
  apply emitting_try_except_Exception; [|apply emitting_ret].
  case_bool_decide; [apply emitting_ret|]. cbv zeta.
  destruct (read_daily_input daily_input) as [|kode rest]; [apply emitting_ret|].
  generalize (kode :: rest) as work. intros work.
  apply emitting_bind.
  { apply emitting_browsing. eapply browsing_weaken; [apply from_table_routine|].
    apply login_browsing. }
  intros [|]; [|apply emitting_ret].
  apply emitting_bind.
  { apply emitting_browsing. eapply browsing_weaken; [apply from_table_routine|].
    apply navigate_to_dp_menu_browsing. }
  intros [|]; [|apply emitting_ret]. simpl.
  apply emitting_bind; [intros s; constructor|]. intros _.
  apply emitting_bind; [apply process_items_from_table|]. intros _.
  apply emitting_bind; [|intros; apply emitting_ret].
  intros s. rewrite generate_final_report_run. simpl.
  destruct (start_time (stats s)); by repeat constructor.
Qed.

Lemma marks_attempt (t : list Event) city rk kode :
  EvAttempt city rk kode ∈ t → AttemptStarted kode ∈ marks t.
Proof. intros Hin. apply list_elem_of_omap. by exists (EvAttempt city rk kode). Qed.

(** X18.  A run that reads its table from the reference file (the one
    named by MASTER_DATA_FILE, as [run_automation] passes no name) starts
    an attempt only for a code of the work list, and with the city and the
    RK of the last complete row that the file has for this code; both are
    not empty. *)
Theorem attempts_use_the_last_row cfg MASTER_DATA_FILE fs open_csv daily_input
    (s : Bot W) city rk kode
    (Hattempt : EvAttempt city rk kode
                ∈ (run_automation cfg
                     (load_master_data MASTER_DATA_FILE fs open_csv None)
                     daily_input s).2) :
  ∃ reading fieldnames rows pre post n,
    fs MASTER_DATA_FILE = RegularFile
    ∧ open_csv MASTER_DATA_FILE = Reply reading
    ∧ records reading = fieldnames :: rows
    ∧ master_entries fieldnames rows
      = pre ++ (kode, {| City := city; RK := rk; row_number := n |}) :: post
    ∧ kode ∉ post.*1
    ∧ city ≠ "" ∧ rk ≠ ""
    ∧ kode ∈ read_daily_input daily_input.
Proof.
  destruct (run_automation_run cfg
              (load_master_data MASTER_DATA_FILE fs open_csv None) daily_input s)
    as (b & s' & t & Hrun & _ & _ & Hcase).
  cbv zeta in Hcase.
  destruct (load_master_data MASTER_DATA_FILE fs open_csv None) as [master_data|] eqn:Hload.
  2:{ rewrite Hrun in Hattempt. simpl in Hattempt. destruct b.
      - by destruct Hcase as (md & pre & ? & _).
      - destruct Hcase as (_ & _ & _ & _ & Hnil).
        destruct Hnil as [-> _]; [by left|]. by apply elem_of_nil in Hattempt. }
  pose proof (run_automation_from_table cfg master_data daily_input s) as Htable.
  rewrite Hrun in Htable, Hattempt. simpl in Htable, Hattempt.
  assert (kode ∈ read_daily_input daily_input) as Hwork.
  { apply marks_attempt in Hattempt. destruct b.
    - destruct Hcase as (md & pre & _ & _ & _ & _ & _ & Hmarks & _). by apply Hmarks.
    - destruct Hcase as (_ & _ & Hmarks & _). rewrite Hmarks in Hattempt.
      by apply elem_of_nil in Hattempt. }
  rewrite Forall_forall in Htable. specialize (Htable _ Hattempt). simpl in Htable.
  destruct (master_data !! kode) as [[city' rk' n]|] eqn:Hentry; [|done].
  simpl in Htable. apply andb_true_iff in Htable as [->%String.eqb_eq ->%String.eqb_eq].
  destruct (load_master_data_Some _ _ _ _ Hload) as (reading & Hfs & Hopen & Hrecords).
  destruct (load_records_Some _ _ Hrecords)
    as (_ & fieldnames & rows & Hrec & _ & _ & _ & Hlast).
  destruct (proj1 (Hlast _ _) Hentry) as (pre & post & Hentries & Hpost).
  assert ((kode, {| City := city'; RK := rk'; row_number := n |})
          ∈ master_entries fieldnames rows) as Hin.
  { rewrite Hentries. apply elem_of_app. right. apply list_elem_of_here. }
  apply master_entries_elem in Hin as (i & row & _ & Hsome).
  apply entry_of_Some in Hsome as (_ & _ & _ & _ & _ & ? & ? & _).
  exists reading, fieldnames, rows, pre, post, n. by split_and!.
Qed.
End Table.

(* ===================================================================== *)
(** * Sample files *)
(* ===================================================================== *)

Lemma sample_file_loads :
  load_records sample_file
  = Some {[ "A1" := {| City := "CityW"; RK := "RegionV"; row_number := 4 |} ]}.
Proof. vm_compute. reflexivity. Qed.

Lemma table_rows_are_complete_witness :
  ∃ fieldnames rows row,
    records sample_file = fieldnames :: rows
    ∧ List.filter nonblank rows !! 2%nat = Some row
    ∧ "CityW" = stripped_field (DictReader_row fieldnames row) "City".
Proof.
  destruct (table_rows_are_complete sample_file
              {[ "A1" := {| City := "CityW"; RK := "RegionV"; row_number := 4 |} ]}
              "A1" {| City := "CityW"; RK := "RegionV"; row_number := 4 |})
    as (_ & _ & _ & fieldnames & rows & i & row & Hrec & Hrow & Hnum & _ & Hcity & _).
  - exact sample_file_loads.
  - reflexivity.
  - simpl in Hnum. assert (i = 2%nat) as -> by lia.
    exists fieldnames, rows, row. split; [exact Hrec|]. split; [exact Hrow|exact Hcity].
Defined.

Lemma column_names_are_exact_witness :
  "City" ∈ map strip (["Kode_DP"; " City"; "RK"] : list string)
  ∧ load_records padded_header_file = None.
Proof.
  split.
  - vm_compute. apply list_elem_of_further, list_elem_of_here.
  - apply (column_names_are_exact ["Kode_DP"; " City"; "RK"]
             [["A1"; "CityX"; "RegionY"]] None "City").
    + apply list_elem_of_further, list_elem_of_here.
    + intros Hin. clear -Hin. from_list Hin.
Defined.

Lemma table_run_attempt :
  table_run.2 !! 24%nat = Some (EvAttempt "CityW" "RegionV" "A1").
Proof. vm_compute. reflexivity. Qed.

Lemma attempts_use_the_last_row_witness :
  ∃ reading fieldnames rows pre post n,
    reading = sample_file
    ∧ records reading = fieldnames :: rows
    ∧ master_entries fieldnames rows
      = pre ++ ("A1", {| City := "CityW"; RK := "RegionV"; row_number := n |}) :: post
    ∧ "A1" ∉ post.*1.
Proof.
  destruct (@attempts_use_the_last_row nat (scripted (obliging "A1" created))
              sample_config "master_data_dp.csv" (λ _, RegularFile)
              (λ _, Reply sample_file) (Ok ["A1"]) (new_bot 0%nat 0)
              "CityW" "RegionV" "A1")
    as (reading & fieldnames & rows & pre & post & n & _ & Hopen & Hrec & Hentries
        & Hpost & _).
  - apply (list_elem_of_lookup_2 _ 24%nat). exact table_run_attempt.
  - exists reading, fieldnames, rows, pre, post, n.
    split; [by injection Hopen|]. split; [exact Hrec|]. split; [exact Hentries|exact Hpost].
Defined.
